(** * Person Data Store: access control of the Flask application

    A shallow embedding of [app.py]: the two tables ([User], [Person]), the
    Flask session, the [permission_required] decorator and the nine views.

    Modelling conventions.
    - A table is a finite map from its primary key [id] to the remaining
      columns of the row; [Person.query.get(id)] is a lookup.
    - A request body ([request.get_json()]) is a finite map from keys to
      JSON scalars (null, integer, string).
    - The Flask [session] is the per-client record the views read and
      write; [session.clear()] empties it.
    - A view returns its response, or raises.  An uncaught exception is
      answered with status 500 and nothing is committed.
    - The record store: a NULL in a [nullable=False] column and a primary
      key already in use are rejected at [commit], an integer outside 64
      bits cannot be bound ([OverflowError]), a [None] in a column with a
      default is stored as the default, and foreign keys are not enforced
      (SQLite's default).
    - Password hashing ([werkzeug.security]) is a parameter.

    Limits of the model.  It covers request bodies in which a value
    written to a column has the JSON type of the column, and in which a
    key of an update names a column of [Person] or no attribute of the
    object at all.  Outside of that the program behaves in ways the model
    does not follow: SQLite converts a value of another type by the
    affinity of the column and stores it, where the model raises
    [TypeError]; [hasattr] is also true of the attributes [Person]
    inherits from its base class, where assigning may raise or pass
    unnoticed and the model skips the key; and when the largest key of a
    table is 2^63 - 1 SQLite picks an unused key at random, where the
    model's [next_id] is the largest key plus one.  Where a property
    below says that a request with a payload succeeds, the types of the
    payload's values are among its hypotheses. *)

From stdpp Require Import gmap strings list fin_maps sorting.
From Stdlib Require Import ZArith Lia Ascii.

Open Scope Z_scope.

(** ** Exceptions and the error monad *)

Inductive exn :=
  | KeyError (key : string)
  | AttributeError
  | TypeError
  | OverflowError
  | IntegrityError.

Inductive result (A : Type) :=
  | Ok (a : A)
  | Raise (e : exn).
Arguments Ok {A} a.
Arguments Raise {A} e.

#[global] Instance result_ret : MRet result := fun _ a => Ok a.
#[global] Instance result_bind : MBind result := fun _ _ f r =>
  match r with
  | Ok a => f a
  | Raise e => Raise e
  end.

(** ** JSON scalars and request bodies *)

Inductive json :=
  | JNull
  | JInt (z : Z)
  | JStr (s : string).

#[global] Instance json_eq_dec : EqDecision json.
Proof. solve_decision. Defined.

Abbreviation payload := (gmap string json).

(** [data[key]] *)
Definition getitem (data : payload) (key : string) : result json :=
  match data !! key with
  | Some v => Ok v
  | None => Raise (KeyError key)
  end.

(** [data.get(key)] and [data.get(key, default)] *)
Definition dict_get (data : payload) (key : string) (default : json) : json :=
  match data !! key with
  | Some v => v
  | None => default
  end.

(** ** Columns *)

(** [db.String(..), nullable=False] *)
Definition string_column (v : json) : result string :=
  match v with
  | JStr s => Ok s
  | JNull => Raise IntegrityError
  | JInt _ => Raise TypeError
  end.

(** [db.String(..)] *)
Definition nullable_string_column (v : json) : result (option string) :=
  match v with
  | JStr s => Ok (Some s)
  | JNull => Ok None
  | JInt _ => Raise TypeError
  end.

(** [db.String(..), default=..]: a [None] is stored as the default. *)
Definition defaulted_string_column (default : string) (v : json) : result string :=
  match v with
  | JStr s => Ok s
  | JNull => Ok default
  | JInt _ => Raise TypeError
  end.

(** The integers the store can bind: 64 bits, signed. *)
Definition int64 (z : Z) : Prop := - 2 ^ 63 ≤ z < 2 ^ 63.

#[global] Instance int64_dec z : Decision (int64 z).
Proof. unfold int64. apply _. Defined.

(** [db.Integer, nullable=False] *)
Definition integer_column (v : json) : result Z :=
  match v with
  | JInt z => if decide (int64 z) then Ok z else Raise OverflowError
  | JNull => Raise IntegrityError
  | JStr _ => Raise TypeError
  end.

(** [db.Integer] *)
Definition nullable_integer_column (v : json) : result (option Z) :=
  match v with
  | JInt z => if decide (int64 z) then Ok (Some z) else Raise OverflowError
  | JNull => Ok None
  | JStr _ => Raise TypeError
  end.

(** ** Permission constants *)

Definition READ_PERMISSION : string := "read".
Definition CREATE_PERMISSION : string := "create".
Definition UPDATE_PERMISSION : string := "update".
Definition DELETE_PERMISSION : string := "delete".

(** ** Models *)

(** [s.split(sep)] for a one-character separator: empty fields are kept and
    the empty string splits into one empty field. *)
Fixpoint split (sep : ascii) (s : string) : list string :=
  match s with
  | EmptyString => [EmptyString]
  | String c rest =>
      if decide (c = sep) then EmptyString :: split sep rest
      else match split sep rest with
           | field :: fields => String c field :: fields
           | [] => [String c EmptyString]
           end
  end.

Definition comma : ascii := ","%char.

Record User := {
  username : string;
  password_hash : string;
  permissions : string   (* comma-separated permissions *)
}.

Definition has_permission (self : User) (permission : string) : bool :=
  bool_decide (permission ∈ split comma (permissions self)).

Record Person := {
  name : string;
  age : Z;
  email : string;
  phone : option string;
  address : option string;
  created_by : option Z
}.

Record database := {
  users : gmap Z User;
  persons : gmap Z Person
}.

(** The Flask session: the three keys the application stores. *)
Record session := {
  sess_user_id : option Z;
  sess_username : option string;
  sess_permissions : option string
}.

(** [session.clear()] *)
Definition session_clear : session :=
  {| sess_user_id := None; sess_username := None; sess_permissions := None |}.

(** ** Queries *)

(** [query.filter_by(..).first()] *)
Definition first {A} (P : A → Prop) `{∀ x, Decision (P x)}
    (table : gmap Z A) : option (Z * A) :=
  head (filter (λ row, P row.2) (map_to_list table)).

Definition filter_by_username (v : json) (table : gmap Z User) : option (Z * User) :=
  match v with
  | JStr u => first (λ user, username user = u) table
  | _ => None
  end.

Definition filter_by_email (v : json) (table : gmap Z Person) : option (Z * Person) :=
  match v with
  | JStr e => first (λ person, email person = e) table
  | _ => None
  end.

(** [query.all()]: the rows by ascending key. *)
Definition key_le {A} (row1 row2 : Z * A) : Prop := row1.1 ≤ row2.1.

#[global] Instance key_le_dec {A} (row1 row2 : Z * A) : Decision (key_le row1 row2).
Proof. unfold key_le. apply _. Defined.

Definition all {A} (table : gmap Z A) : list (Z * A) :=
  merge_sort key_le (map_to_list table).

(** The key of an inserted row: one more than the largest key in use, 1 in
    an empty table.  (For keys below 2^63 - 1; see the limits of the
    model.) *)
Definition max_key {A} (table : gmap Z A) : option Z :=
  map_fold (λ k _ acc, Some (match acc with Some m => Z.max k m | None => k end))
           None table.

Definition next_id {A} (table : gmap Z A) : Z :=
  match max_key table with
  | Some m => m + 1
  | None => 1
  end.

(** ** Responses *)

Inductive body :=
  | ErrorBody (error : string)
  | MessageBody (message : string)
  | UserBody (message : string) (id : Z) (uname : string) (perms : string)
  | PersonMessageBody (message : string) (id : Z) (person : Person)
  | PersonBody (id : Z) (person : Person)
  | PersonsBody (rows : list (Z * Person))
  | PermissionsBody (uname : string) (perms : list string)
  | NotFoundBody
  | InternalErrorBody (e : exn).

Definition response : Type := body * Z.

Definition jsonify_error (error : string) (status : Z) : response :=
  (ErrorBody error, status).

(** A view reads and writes the database and the session. *)
Definition view : Type := database → session → result (database * session * response).

Definition respond (d : database) (s : session) (r : response)
  : result (database * session * response) := Ok (d, s, r).

(** Python truth value of [session.get('user_id')] *)
Definition truthy (user_id : option Z) : bool :=
  match user_id with
  | Some n => negb (n =? 0)
  | None => false
  end.

(** [User.query.get(user_id)] *)
Definition get_user (d : database) (user_id : option Z) : option User :=
  match user_id with
  | Some n => users d !! n
  | None => None
  end.

(** ** Permission decorator *)

Definition permission_required (permission : string) (f : view) : view :=
  fun d s =>
    let user_id := sess_user_id s in
    if negb (truthy user_id) then
      respond d s (jsonify_error "Authentication required" 401)
    else
      match get_user d user_id with
      | None =>
          respond d s (jsonify_error ("Permission denied. Requires: " +:+ permission) 403)
      | Some user =>
          if negb (has_permission user permission) then
            respond d s (jsonify_error ("Permission denied. Requires: " +:+ permission) 403)
          else f d s
      end.

(** ** Views on the person collection *)

(** [GET /api/persons] *)
Definition get_persons : view :=
  permission_required READ_PERMISSION (fun d s =>
    let rows := all (persons d) in
    let persons_data := foldl (λ acc person_data, acc ++ [person_data]) [] rows in
    respond d s (PersonsBody persons_data, 200)).

(** [person.created_by != user_id and not user.has_permission('admin')],
    the test shared by the three single-record views. *)
Definition access_refused (person : Person) (user_id : option Z)
    (user : option User) : result bool :=
  if decide (created_by person ≠ user_id) then
    match user with
    | Some u => mret (negb (has_permission u "admin"))
    | None => Raise AttributeError
    end
  else mret false.

(** [GET /api/persons/<int:id>] *)
Definition get_person (id : Z) : view :=
  permission_required READ_PERMISSION (fun d s =>
    match persons d !! id with
    | None => respond d s (NotFoundBody, 404)
    | Some person =>
        let user_id := sess_user_id s in
        let user := get_user d user_id in
        refused ← access_refused person user_id user;
        if refused : bool then
          respond d s (jsonify_error "Access denied to this resource" 403)
        else respond d s (PersonBody id person, 200)
    end).

(** [POST /api/persons] *)
Definition create_person (data : payload) : view :=
  permission_required CREATE_PERMISSION (fun d s =>
    let user_id := sess_user_id s in
    e ← getitem data "email";
    match filter_by_email e (persons d) with
    | Some _ => respond d s (jsonify_error "Email already exists" 400)
    | None =>
        n ← getitem data "name";
        a ← getitem data "age";
        e ← getitem data "email";
        let ph := dict_get data "phone" JNull in
        let ad := dict_get data "address" JNull in
        (* db.session.add(person); db.session.commit() *)
        n ← string_column n;
        a ← integer_column a;
        e ← string_column e;
        ph ← nullable_string_column ph;
        ad ← nullable_string_column ad;
        let person := {| name := n; age := a; email := e; phone := ph;
                         address := ad; created_by := user_id |} in
        let id := next_id (persons d) in
        respond {| users := users d; persons := <[id := person]> (persons d) |} s
                (PersonMessageBody "Person created successfully" id person, 201)
    end).

(** [setattr(person, key, value)] guarded by [hasattr(person, key)]; the
    row is the pair of its key and its other columns. *)
Definition setattr (key : string) (value : json) (row : result (Z * Person))
    : result (Z * Person) :=
  '(id, p) ← row;
  if decide (key = "id") then
    v ← integer_column value; mret (v, p)
  else if decide (key = "name") then
    v ← string_column value;
    mret (id, {| name := v; age := age p; email := email p; phone := phone p;
                 address := address p; created_by := created_by p |})
  else if decide (key = "age") then
    v ← integer_column value;
    mret (id, {| name := name p; age := v; email := email p; phone := phone p;
                 address := address p; created_by := created_by p |})
  else if decide (key = "email") then
    v ← string_column value;
    mret (id, {| name := name p; age := age p; email := v; phone := phone p;
                 address := address p; created_by := created_by p |})
  else if decide (key = "phone") then
    v ← nullable_string_column value;
    mret (id, {| name := name p; age := age p; email := email p; phone := v;
                 address := address p; created_by := created_by p |})
  else if decide (key = "address") then
    v ← nullable_string_column value;
    mret (id, {| name := name p; age := age p; email := email p; phone := phone p;
                 address := v; created_by := created_by p |})
  else if decide (key = "created_by") then
    v ← nullable_integer_column value;
    mret (id, {| name := name p; age := age p; email := email p; phone := phone p;
                 address := address p; created_by := v |})
  else mret (id, p).

(** [for key, value in data.items(): ...] *)
Definition update_fields (data : payload) (id : Z) (person : Person)
    : result (Z * Person) :=
  map_fold setattr (Ok (id, person)) data.

(** [db.session.commit()] of a modified row: the row leaves its old key
    and is stored under its new one, which must be free. *)
Definition commit_update (id id' : Z) (person' : Person) (table : gmap Z Person)
    : result (gmap Z Person) :=
  if decide (id' ≠ id ∧ is_Some (table !! id')) then Raise IntegrityError
  else mret (<[id' := person']> (delete id table)).

(** The body of [update_person] below its access test: the check of a
    changed email, the loop over the payload and the commit. *)
Definition write_person (id : Z) (data : payload) (person : Person) : view :=
  fun d s =>
    let taken :=
      match data !! "email" with
      | Some e =>
          if decide (e ≠ JStr (email person)) then
            bool_decide (is_Some (filter_by_email e (persons d)))
          else false
      | None => false
      end in
    if taken then respond d s (jsonify_error "Email already exists" 400)
    else
      '(id', person') ← update_fields data id person;
      table ← commit_update id id' person' (persons d);
      respond {| users := users d; persons := table |} s
              (PersonMessageBody "Person updated successfully" id' person', 200).

(** [PUT /api/persons/<int:id>] *)
Definition update_person (id : Z) (data : payload) : view :=
  permission_required UPDATE_PERMISSION (fun d s =>
    match persons d !! id with
    | None => respond d s (NotFoundBody, 404)
    | Some person =>
        let user_id := sess_user_id s in
        let user := get_user d user_id in
        refused ← access_refused person user_id user;
        if refused : bool then
          respond d s (jsonify_error "Cannot update this person" 403)
        else write_person id data person d s
    end).

(** [DELETE /api/persons/<int:id>] *)
Definition delete_person (id : Z) : view :=
  permission_required DELETE_PERMISSION (fun d s =>
    match persons d !! id with
    | None => respond d s (NotFoundBody, 404)
    | Some person =>
        let user_id := sess_user_id s in
        let user := get_user d user_id in
        refused ← access_refused person user_id user;
        if refused : bool then
          respond d s (jsonify_error "Cannot delete this person" 403)
        else
          respond {| users := users d; persons := delete id (persons d) |} s
                  (MessageBody "Person deleted successfully", 200)
    end).

(** [GET /api/user/permissions] *)
Definition get_user_permissions : view :=
  fun d s =>
    match sess_user_id s with
    | None => respond d s (jsonify_error "Not authenticated" 401)
    | Some n =>
        match users d !! n with
        | None => Raise AttributeError
        | Some user =>
            respond d s
                    (PermissionsBody (username user) (split comma (permissions user)), 200)
        end
    end.

(** [POST /api/logout] *)
Definition logout : view :=
  fun d s => respond d session_clear (MessageBody "Logged out successfully", 200).

(** The five views behind [permission_required]. *)
Inductive operation :=
  | ListPersons
  | GetPerson (id : Z)
  | CreatePerson (data : payload)
  | UpdatePerson (id : Z) (data : payload)
  | DeletePerson (id : Z).

Definition required (op : operation) : string :=
  match op with
  | ListPersons | GetPerson _ => READ_PERMISSION
  | CreatePerson _ => CREATE_PERMISSION
  | UpdatePerson _ _ => UPDATE_PERMISSION
  | DeletePerson _ => DELETE_PERMISSION
  end.

Definition run (op : operation) : view :=
  match op with
  | ListPersons => get_persons
  | GetPerson id => get_person id
  | CreatePerson data => create_person data
  | UpdatePerson id data => update_person id data
  | DeletePerson id => delete_person id
  end.

(** ** Views on the user collection, parameterised by the password hash *)

Section Accounts.

Variable generate_password_hash : string → string.
Variable check_password_hash : string → string → bool.

(** [user.set_password(password)] *)
Definition set_password (password : json) : result string :=
  match password with
  | JStr pw => Ok (generate_password_hash pw)
  | _ => Raise AttributeError
  end.

(** [user.check_password(password)] *)
Definition check_password (self : User) (password : json) : result bool :=
  match password with
  | JStr pw => Ok (check_password_hash (password_hash self) pw)
  | _ => Raise AttributeError
  end.

(** [POST /api/register] *)
Definition register (data : payload) : view :=
  fun d s =>
    u ← getitem data "username";
    match filter_by_username u (users d) with
    | Some _ => respond d s (jsonify_error "Username already exists" 400)
    | None =>
        pw ← getitem data "password";
        h ← set_password pw;
        (* Set permissions if provided, otherwise default to read only *)
        let perms := dict_get data "permissions" (JStr READ_PERMISSION) in
        (* db.session.add(user); db.session.commit() *)
        u ← string_column u;
        perms ← defaulted_string_column READ_PERMISSION perms;
        let user := {| username := u; password_hash := h; permissions := perms |} in
        let id := next_id (users d) in
        respond {| users := <[id := user]> (users d); persons := persons d |} s
                (UserBody "User registered successfully" id u perms, 201)
    end.

(** [POST /api/login] *)
Definition login (data : payload) : view :=
  fun d s =>
    u ← getitem data "username";
    match filter_by_username u (users d) with
    | None => respond d s (jsonify_error "Invalid credentials" 401)
    | Some (id, user) =>
        pw ← getitem data "password";
        ok ← check_password user pw;
        if negb ok then respond d s (jsonify_error "Invalid credentials" 401)
        else
          let s' := {| sess_user_id := Some id;
                       sess_username := Some (username user);
                       sess_permissions := Some (permissions user) |} in
          respond d s'
                  (UserBody "Logged in successfully" id (username user) (permissions user), 200)
    end.

(** The start-up block: create the default admin user if not exists. *)
Definition create_all : database := {| users := ∅; persons := ∅ |}.

Definition startup (d : database) : database :=
  match filter_by_username (JStr "admin") (users d) with
  | Some _ => d
  | None =>
      let admin := {| username := "admin";
                      password_hash := generate_password_hash "admin123";
                      permissions := "read,create,update,delete,admin" |} in
      {| users := <[next_id (users d) := admin]> (users d); persons := persons d |}
  end.

(** ** Requests *)

Inductive request :=
  | Register (data : payload)
  | Login (data : payload)
  | Logout
  | Gated (op : operation)
  | GetUserPermissions.

Definition route (r : request) : view :=
  match r with
  | Register data => register data
  | Login data => login data
  | Logout => logout
  | Gated op => run op
  | GetUserPermissions => get_user_permissions
  end.

(** One request: an uncaught exception is answered 500 and leaves the
    database and the session as they were. *)
Definition handle (r : request) (d : database) (s : session)
    : database * session * response :=
  match route r d s with
  | Ok out => out
  | Raise e => (d, s, (InternalErrorBody e, 500))
  end.

(** Databases reachable from start-up by requests of any clients. *)
Inductive reachable : database → Prop :=
  | reachable_startup : reachable (startup create_all)
  | reachable_handle r d s :
      reachable d → reachable (handle r d s).1.1.

End Accounts.

(** ** Clients

    Flask keeps one session per client, in the cookie it sends back with
    every answer; the [session] a view reads and writes is the one of the
    client that sent the request.  A world is the database and the session
    each client holds; a client never seen holds the empty session. *)



Section Clients.

Variable generate_password_hash : string → string.
Variable check_password_hash : string → string → bool.



End Clients.

(** * Vocabulary of the properties, and a small store to run the views on *)

(** The user's permission string lists [permission]. *)
Definition holds (user : User) (permission : string) : Prop :=
  permission ∈ split comma (permissions user).

#[global] Instance holds_dec user permission : Decision (holds user permission).
Proof. unfold holds. apply _. Defined.

(** The session names the stored user [user] under a key Python reads as
    true. *)
Definition logged_in (d : database) (s : session) (uid : Z) (user : User) : Prop :=
  sess_user_id s = Some uid ∧ uid ≠ 0 ∧ users d !! uid = Some user.

Definition unauthenticated : response :=
  (ErrorBody "Authentication required", 401).

Definition permission_denied (permission : string) : response :=
  (ErrorBody ("Permission denied. Requires: " +:+ permission), 403).

(** The record a single-record operation addresses. *)
Definition target (op : operation) : option Z :=
  match op with
  | GetPerson id | UpdatePerson id _ | DeletePerson id => Some id
  | ListPersons | CreatePerson _ => None
  end.

(** The answer of a single-record operation to a caller who is neither the
    creator of the record nor an admin. *)
Definition ownership_denied (op : operation) : option response :=
  match op with
  | GetPerson _ => Some (ErrorBody "Access denied to this resource", 403)
  | UpdatePerson _ _ => Some (ErrorBody "Cannot update this person", 403)
  | DeletePerson _ => Some (ErrorBody "Cannot delete this person", 403)
  | ListPersons | CreatePerson _ => None
  end.

(** What a single-record operation does on [person] past its access test. *)
Definition granted (op : operation) (person : Person) : view :=
  match op with
  | GetPerson id => fun d s => respond d s (PersonBody id person, 200)
  | UpdatePerson id data => write_person id data person
  | DeletePerson id => fun d s =>
      respond {| users := users d; persons := delete id (persons d) |} s
              (MessageBody "Person deleted successfully", 200)
  | ListPersons | CreatePerson _ => run op
  end.

Definition owner_or_admin (person : Person) (uid : Z) (user : User) : Prop :=
  created_by person = Some uid ∨ holds user "admin".

Definition admin_user : User :=
  {| username := "admin"; password_hash := "pbkdf2:admin123";
     permissions := "read,create,update,delete,admin" |}.

Definition bo_user : User :=
  {| username := "u2"; password_hash := "pbkdf2:u2";
     permissions := "read,create" |}.

Definition ann : Person :=
  {| name := "Ann"; age := 30; email := "ann@x.com"; phone := None;
     address := None; created_by := Some 1 |}.

Definition bo : Person :=
  {| name := "Bo"; age := 25; email := "bo@x.com"; phone := None;
     address := None; created_by := Some 2 |}.

Definition bo_aged (a : Z) : Person :=
  {| name := "Bo"; age := a; email := "bo@x.com"; phone := None;
     address := None; created_by := Some 2 |}.

Definition demo_users : gmap Z User := <[2 := bo_user]> {[1 := admin_user]}.

Definition demo_db : database :=
  {| users := demo_users; persons := <[2 := bo]> {[1 := ann]} |}.

Definition admin_session : session :=
  {| sess_user_id := Some 1; sess_username := Some "admin";
     sess_permissions := Some "read,create,update,delete,admin" |}.

Definition bo_session : session :=
  {| sess_user_id := Some 2; sess_username := Some "u2";
     sess_permissions := Some "read,create" |}.

(** Column [key] after the loop: the payload's value when the payload has
    the key, the old value otherwise. *)
Definition assigned {A} (col : json → result A) (data : payload) (key : string)
    (old new : A) : Prop :=
  match data !! key with
  | Some v => col v = Ok new
  | None => new = old
  end.

Definition columns_assigned (data : payload) (id : Z) (p : Person)
    (id' : Z) (p' : Person) : Prop :=
  assigned integer_column data "id" id id' ∧
  assigned string_column data "name" (name p) (name p') ∧
  assigned integer_column data "age" (age p) (age p') ∧
  assigned string_column data "email" (email p) (email p') ∧
  assigned nullable_string_column data "phone" (phone p) (phone p') ∧
  assigned nullable_string_column data "address" (address p) (address p') ∧
  assigned nullable_integer_column data "created_by" (created_by p) (created_by p').

Definition retitled (p : Person) (creator : option Z) : Person :=
  {| name := name p; age := age p; email := email p; phone := phone p;
     address := address p; created_by := creator |}.

Definition emails_unique (table : gmap Z Person) : Prop :=
  ∀ i j p q, table !! i = Some p → table !! j = Some q → email p = email q → i = j.

(** A stand-in for the password hash, to run whole requests. *)
Definition demo_hash (password : string) : string := "pbkdf2:" +:+ password.
Definition demo_check (pwhash password : string) : bool :=
  bool_decide (pwhash = demo_hash password).

(** A run from start-up: the seeded admin logs in and creates a person of
    age -5. *)
Definition minus_five : payload :=
  {["name" := JStr "Ann"; "age" := JInt (-5); "email" := JStr "ann@x.com"]}.

Definition started : database := startup demo_hash create_all.

Definition after_login : database * session * response :=
  handle demo_hash demo_check
         (Login {["username" := JStr "admin"; "password" := JStr "admin123"]})
         started session_clear.

Definition after_create : database * session * response :=
  handle demo_hash demo_check (Gated (CreatePerson minus_five))
         after_login.1.1 after_login.1.2.

(** The answer of a view without the session it hands back. *)
Definition forget (out : result (database * session * response))
    : result (database * response) :=
  '(d, _, r) ← out; mret (d, r).

(** The second user logs in; later the database grants that user [delete]. *)
Definition bo_promoted : User :=
  {| username := "u2"; password_hash := "pbkdf2:u2";
     permissions := "read,create,delete" |}.

Definition promoted_db : database :=
  {| users := <[2 := bo_promoted]> demo_users; persons := persons demo_db |}.

(** [sep.join(fields)] *)
Fixpoint join (sep : ascii) (fields : list string) : string :=
  match fields with
  | [] => EmptyString
  | [field] => field
  | field :: rest => field +:+ String sep (join sep rest)
  end.

(** [c in s] *)
Fixpoint occurs (c : ascii) (s : string) : bool :=
  match s with
  | EmptyString => false
  | String c' rest => if decide (c' = c) then true else occurs c rest
  end.

Definition usernames_unique (table : gmap Z User) : Prop :=
  ∀ i j p q, table !! i = Some p → table !! j = Some q → username p = username q → i = j.

(** Every key of the table is at least 1. *)
Definition keys_positive {A} (table : gmap Z A) : Prop :=
  ∀ i x, table !! i = Some x → 1 ≤ i.

(** A store where the second user may read and update but is no admin. *)
Definition editor_user : User :=
  {| username := "u2"; password_hash := "pbkdf2:u2"; permissions := "read,update" |}.

Definition editor_db : database :=
  {| users := <[2 := editor_user]> demo_users; persons := persons demo_db |}.

(** The columns of [Person]. *)
Definition person_columns : list string :=
  ["id"; "name"; "age"; "email"; "phone"; "address"; "created_by"].

(** The second user is made an admin after the login. *)
Definition bo_knighted : User :=
  {| username := "u2"; password_hash := "pbkdf2:u2"; permissions := "read,admin" |}.

Definition knighted_db : database :=
  {| users := <[2 := bo_knighted]> demo_users; persons := persons demo_db |}.


(** * Properties *)

(** ** The error monad *)

Lemma bind_Ok {A B} (f : A → result B) (r : result A) (b : B) :
  r ≫= f = Ok b ↔ ∃ a, r = Ok a ∧ f a = Ok b.
Proof.
  destruct r as [a|e]; simpl; split.
  - intros Hf. exists a. done.
  - intros (a' & [= <-] & Hf). done.
  - intros [=].
  - intros (a' & [=] & _).
Qed.

(** ** Queries *)

Section Queries.

Context {A : Type} (P : A → Prop) `{∀ x, Decision (P x)}.
Implicit Types table : gmap Z A.

Lemma first_None table :
  first P table = None ↔ ∀ i x, table !! i = Some x → ¬ P x.
Proof.
  unfold first. rewrite head_None. split.
  - intros Hnil i x Hix HP.
    apply (filter_nil_not_elem_of _ _ (i, x) Hnil HP).
    by apply elem_of_map_to_list.
  - intros Hall.
    destruct (filter _ _) as [|[i x] rest] eqn:Hf; [done|].
    assert (Hin : (i, x) ∈ filter (λ row : Z * A, P row.2) (map_to_list table))
      by (rewrite Hf; left).
    apply list_elem_of_filter in Hin as [HP Hin].
    apply elem_of_map_to_list in Hin. by destruct (Hall i x).
Qed.

Lemma first_Some table i x :
  first P table = Some (i, x) → table !! i = Some x ∧ P x.
Proof.
  unfold first. intros Hhd. apply head_Some_elem_of in Hhd.
  apply list_elem_of_filter in Hhd as [HP Hin].
  by apply elem_of_map_to_list in Hin.
Qed.

Lemma first_is_Some table i x :
  table !! i = Some x → P x → is_Some (first P table).
Proof.
  intros Hix HP. destruct (first P table) eqn:Hf; [by eexists|].
  rewrite first_None in Hf. by destruct (Hf i x).
Qed.

End Queries.

Lemma max_key_bound {A} (table : gmap Z A) i x :
  table !! i = Some x → ∃ m, max_key table = Some m ∧ i ≤ m.
Proof.
  unfold max_key. revert i x.
  apply (map_fold_weak_ind (λ r t, ∀ i x, t !! i = Some x → ∃ m, r = Some m ∧ i ≤ m)).
  - intros i x. by rewrite lookup_empty.
  - intros k y t r Hk IH i x. rewrite lookup_insert. case_decide as Hki.
    + intros _. subst k. destruct r as [m|]; eexists; split; try done; lia.
    + intros Hix. destruct (IH i x Hix) as (m & -> & Hm).
      eexists; split; [done|]. lia.
Qed.

(** The key given to an inserted row is not in use. *)
Lemma next_id_fresh {A} (table : gmap Z A) : table !! next_id table = None.
Proof.
  destruct (table !! next_id table) as [x|] eqn:Hx; [|done].
  destruct (max_key_bound _ _ _ Hx) as (m & Hm & Hle).
  unfold next_id in Hle. rewrite Hm in Hle. lia.
Qed.

Lemma foldl_snoc_id {A} (rows acc : list A) :
  foldl (λ acc person_data, acc ++ [person_data]) acc rows = acc ++ rows.
Proof.
  revert acc. induction rows as [|row rows IH]; intros acc; simpl.
  - by rewrite app_nil_r.
  - rewrite IH, <- app_assoc. done.
Qed.

(** ** Permissions and the decorator *)

Lemma has_permission_holds user permission :
  holds user permission → has_permission user permission = true.
Proof. intros Hp. by apply bool_decide_eq_true_2. Qed.

Lemma has_permission_lacks user permission :
  ¬ holds user permission → has_permission user permission = false.
Proof. intros Hp. by apply bool_decide_eq_false_2. Qed.

Lemma truthy_logged_in d s uid user :
  logged_in d s uid user →
  truthy (sess_user_id s) = true ∧ get_user d (sess_user_id s) = Some user.
Proof.
  intros (Hs & Hne & Hu). rewrite Hs. simpl. split; [|done].
  apply negb_true_iff. by apply Z.eqb_neq.
Qed.

Lemma permission_required_anonymous permission f d s :
  truthy (sess_user_id s) = false →
  permission_required permission f d s = Ok (d, s, unauthenticated).
Proof. intros Hs. unfold permission_required. by rewrite Hs. Qed.

Lemma permission_required_granted permission f d s uid user :
  logged_in d s uid user → holds user permission →
  permission_required permission f d s = f d s.
Proof.
  intros Hin Hp. destruct (truthy_logged_in _ _ _ _ Hin) as [Ht Hu].
  unfold permission_required. rewrite Ht, Hu. simpl.
  by rewrite (has_permission_holds _ _ Hp).
Qed.

Lemma permission_required_denied permission f d s uid user :
  logged_in d s uid user → ¬ holds user permission →
  permission_required permission f d s = Ok (d, s, permission_denied permission).
Proof.
  intros Hin Hp. destruct (truthy_logged_in _ _ _ _ Hin) as [Ht Hu].
  unfold permission_required. rewrite Ht, Hu. simpl.
  by rewrite (has_permission_lacks _ _ Hp).
Qed.

Lemma permission_required_inv permission f d s out :
  permission_required permission f d s = Ok out →
  out = (d, s, unauthenticated) ∨
  out = (d, s, permission_denied permission) ∨
  (∃ uid user, logged_in d s uid user ∧ holds user permission) ∧ f d s = Ok out.
Proof.
  unfold permission_required, logged_in, holds, has_permission.
  destruct (sess_user_id s) as [n|]; simpl; [|intros [= <-]; by left].
  destruct (Z.eqb_spec n 0) as [->|Hn]; simpl; [intros [= <-]; by left|].
  destruct (users d !! n) as [user|] eqn:Hu; [|intros [= <-]; right; by left].
  case_bool_decide as Hin; simpl.
  - intros Hf. right; right. split; [|done]. exists n, user. eauto 8.
  - intros [= <-]. right; by left.
Qed.

(** ** Ownership *)

Lemma access_refused_spec d s uid user person :
  logged_in d s uid user →
  access_refused person (sess_user_id s) (get_user d (sess_user_id s))
  = Ok (negb (bool_decide (owner_or_admin person uid user))).
Proof.
  intros Hin. destruct (truthy_logged_in _ _ _ _ Hin) as [_ Hu].
  destruct Hin as (Hs & _ & _). rewrite Hu, Hs.
  unfold access_refused, owner_or_admin. case_decide as Hc.
  - destruct (decide (holds user "admin")) as [Ha|Ha].
    + rewrite (has_permission_holds _ _ Ha). simpl.
      rewrite bool_decide_eq_true_2; [done|]. by right.
    + rewrite (has_permission_lacks _ _ Ha). simpl.
      rewrite bool_decide_eq_false_2; [done|]. by intros [?|?].
  - simpl. rewrite bool_decide_eq_true_2; [done|]. by left.
Qed.

Lemma write_person_outcome id data person d s d' s' r :
  write_person id data person d s = Ok (d', s', r) →
  r = (ErrorBody "Email already exists", 400) ∧ d' = d ∧ s' = s ∨
  ∃ id' person' table,
    update_fields data id person = Ok (id', person') ∧
    commit_update id id' person' (persons d) = Ok table ∧
    d' = {| users := users d; persons := table |} ∧ s' = s ∧
    r = (PersonMessageBody "Person updated successfully" id' person', 200).
Proof.
  unfold write_person.
  destruct (match data !! "email" with Some _ => _ | None => _ end).
  - intros [= <- <- <-]. by left.
  - destruct (update_fields data id person) as [[id' person']|]; simpl; [|done].
    destruct (commit_update id id' person' (persons d)) as [table|] eqn:Hc;
      simpl; [|done].
    intros [= <- <- <-]. right. by exists id', person', table.
Qed.

(** Past the decorator, on a stored record: the creator and an admin get
    the rest of the view, anyone else the 403 of the access test. *)
Lemma run_owner_or_admin op id d s uid user person :
  target op = Some id → logged_in d s uid user → holds user (required op) →
  persons d !! id = Some person → owner_or_admin person uid user →
  run op d s = granted op person d s.
Proof.
  intros Ht Hin Hbase Hrow Hok.
  pose proof (access_refused_spec d s uid user person Hin) as Hacc.
  rewrite bool_decide_eq_true_2 in Hacc by done. simpl in Hacc.
  destruct op; simplify_eq/=; unfold get_person, update_person, delete_person;
    rewrite (permission_required_granted _ _ _ _ _ _ Hin Hbase);
    by rewrite Hrow, Hacc.
Qed.

Lemma run_stranger op id d s uid user person denial :
  target op = Some id → ownership_denied op = Some denial →
  logged_in d s uid user → holds user (required op) →
  persons d !! id = Some person → ¬ owner_or_admin person uid user →
  run op d s = Ok (d, s, denial).
Proof.
  intros Ht Hden Hin Hbase Hrow Hno.
  pose proof (access_refused_spec d s uid user person Hin) as Hacc.
  rewrite bool_decide_eq_false_2 in Hacc by done. simpl in Hacc.
  destruct op; simplify_eq/=; unfold get_person, update_person, delete_person;
    rewrite (permission_required_granted _ _ _ _ _ _ Hin Hbase);
    by rewrite Hrow, Hacc.
Qed.

(** C1. For get, update and delete of an existing record by a logged-in
    user who holds the base permission of the operation: the operation goes
    on past its access test exactly when the record was created by the user
    or the user holds [admin]; otherwise it is answered with the 403 of the
    ownership test, database and session untouched. *)
Theorem ownership_gate op id d s uid user person denial :
  target op = Some id →
  ownership_denied op = Some denial →
  logged_in d s uid user →
  holds user (required op) →
  persons d !! id = Some person →
  (owner_or_admin person uid user → run op d s = granted op person d s) ∧
  (run op d s = Ok (d, s, denial) ↔ ¬ owner_or_admin person uid user).
Proof.
  intros Ht Hden Hin Hbase Hrow.
  split; [by apply (run_owner_or_admin op id)|]. split.
  - intros Hrun Hok.
    rewrite (run_owner_or_admin op id d s uid user person) in Hrun by done.
    destruct op; simplify_eq/=.
    apply write_person_outcome in Hrun as [(? & _)|(? & ? & ? & _ & _ & _ & _ & ?)];
      done.
  - by apply (run_stranger op id d s uid user person).
Qed.

(** ** A small store: the seeded admin, a second user and their records *)

Lemma admin_logged_in : logged_in demo_db admin_session 1 admin_user.
Proof. repeat split; compute_done. Qed.

Lemma bo_logged_in : logged_in demo_db bo_session 2 bo_user.
Proof. repeat split; compute_done. Qed.

Lemma admin_holds permission :
  permission ∈ ["read"; "create"; "update"; "delete"; "admin"] →
  holds admin_user permission.
Proof. intros Hin. exact Hin. Qed.

Lemma bo_holds permission :
  permission ∈ ["read"; "create"] → holds bo_user permission.
Proof. intros Hin. exact Hin. Qed.

Lemma bo_lacks permission :
  permission ∉ ["read"; "create"] → ¬ holds bo_user permission.
Proof. intros Hout Hin. by apply Hout. Qed.

(** The second user may not read the admin's record; the admin may delete
    the second user's. *)
Lemma ownership_gate_witness :
  run (GetPerson 1) demo_db bo_session
    = Ok (demo_db, bo_session, (ErrorBody "Access denied to this resource", 403)) ∧
  run (DeletePerson 2) demo_db admin_session
    = granted (DeletePerson 2) bo demo_db admin_session.
Proof.
  split.
  - apply (ownership_gate (GetPerson 1) 1 demo_db bo_session 2 bo_user ann).
    + reflexivity.
    + reflexivity.
    + exact bo_logged_in.
    + apply bo_holds. compute_done.
    + reflexivity.
    + intros [Hc|Ha]; [discriminate Hc|].
      revert Ha. apply bo_lacks. compute_done.
  - apply (ownership_gate (DeletePerson 2) 2 demo_db admin_session 1 admin_user bo
             (ErrorBody "Cannot delete this person", 403)).
    + reflexivity.
    + reflexivity.
    + exact admin_logged_in.
    + apply admin_holds. compute_done.
    + reflexivity.
    + right. apply admin_holds. compute_done.
Defined.

Lemma guard_order_anonymous op d s :
  truthy (sess_user_id s) = false → run op d s = Ok (d, s, unauthenticated).
Proof. intros Hs. destruct op; by apply permission_required_anonymous. Qed.

(** C2. Order of the guard of every decorated view: without a user id in
    the session the answer is 401 "Authentication required"; with a stored
    user whose permission string lacks the required permission it is 403
    naming that permission, whatever the records, their creators and the
    user's other permissions; the 403 of the ownership test is only given
    to a logged-in user holding the required permission. *)
Theorem guard_order op d s :
  (truthy (sess_user_id s) = false → run op d s = Ok (d, s, unauthenticated)) ∧
  (∀ uid user,
      logged_in d s uid user →
      required op ∉ split comma (permissions user) →
      run op d s = Ok (d, s, permission_denied (required op))) ∧
  (∀ denial d' s',
      ownership_denied op = Some denial → run op d s = Ok (d', s', denial) →
      ∃ uid user, logged_in d s uid user ∧ holds user (required op)).
Proof.
  split; [|split].
  - apply guard_order_anonymous.
  - intros uid user Hin Hout.
    destruct op; by apply (permission_required_denied _ _ _ _ uid user).
  - intros denial d' s' Hden Hrun.
    destruct op; simplify_eq/=;
      apply permission_required_inv in Hrun as [Hrun|[Hrun|[Hlog _]]];
      done.
Qed.

Lemma guard_order_witness :
  run (DeletePerson 1) demo_db session_clear
    = Ok (demo_db, session_clear, unauthenticated) ∧
  run (DeletePerson 2) demo_db bo_session
    = Ok (demo_db, bo_session, permission_denied "delete") ∧
  (∃ uid user, logged_in demo_db bo_session uid user ∧ holds user "read").
Proof.
  split; [|split].
  - apply (proj1 (guard_order (DeletePerson 1) demo_db session_clear)).
    reflexivity.
  - apply (proj1 (proj2 (guard_order (DeletePerson 2) demo_db bo_session))
             2 bo_user).
    + exact bo_logged_in.
    + compute_done.
  - apply (proj2 (proj2 (guard_order (GetPerson 1) demo_db bo_session))
             (ErrorBody "Access denied to this resource", 403) demo_db bo_session).
    + reflexivity.
    + vm_compute. reflexivity.
Defined.

(** ** The update loop, column by column *)

Lemma assigned_insert_ne {A} (col : json → result A) data key k v old new :
  k ≠ key → assigned col data key old new → assigned col (<[k := v]> data) key old new.
Proof. intros Hne. unfold assigned. by rewrite lookup_insert_ne. Qed.

Lemma assigned_insert_eq {A} (col : json → result A) data key v old new :
  col v = Ok new → assigned col (<[key := v]> data) key old new.
Proof. intros Hcol. unfold assigned. by rewrite lookup_insert_eq. Qed.

Lemma setattr_Ok key value row id' p' :
  setattr key value row = Ok (id', p') →
  ∃ id p, row = Ok (id, p) ∧ setattr key value (Ok (id, p)) = Ok (id', p').
Proof. destruct row as [[id p]|e]; [|done]. intros Hs. by exists id, p. Qed.

Lemma update_fields_assigned data id p id' p' :
  update_fields data id p = Ok (id', p') → columns_assigned data id p id' p'.
Proof.
  unfold update_fields. revert id' p'.
  apply (map_fold_weak_ind
           (λ r m, ∀ id' p', r = Ok (id', p') → columns_assigned m id p id' p')).
  - intros id' p' [= <- <-]. by repeat split.
  - intros k v m r Hk IH id' p' Hset.
    apply setattr_Ok in Hset as (id1 & p1 & -> & Hset).
    destruct (IH id1 p1 eq_refl) as (Hid & Hname & Hage & Hemail & Hphone & Haddr & Hcb).
    unfold setattr in Hset. simpl in Hset.
    repeat case_decide; subst;
      try (apply bind_Ok in Hset as (x & Hcol & [= <- <-]));
      try (injection Hset as <- <-);
      unfold columns_assigned; simpl;
      repeat split;
      first [ by apply assigned_insert_eq
            | by apply assigned_insert_ne
            | apply assigned_insert_ne; [done|];
              unfold assigned in *; by simplify_map_eq ].
Qed.

(** A payload without the key leaves the column as it was. *)
Lemma assigned_absent {A} (col : json → result A) data key old new :
  data !! key = None → assigned col data key old new → new = old.
Proof. unfold assigned. by intros ->. Qed.

Lemma assigned_present {A} (col : json → result A) data key v old new :
  data !! key = Some v → assigned col data key old new → col v = Ok new.
Proof. unfold assigned. by intros ->. Qed.

Lemma commit_update_Ok id id' person' table table' :
  commit_update id id' person' table = Ok table' →
  table' = <[id' := person']> (delete id table) ∧
  (id' = id ∨ table !! id' = None).
Proof.
  unfold commit_update. case_decide as Hc; [done|]. intros [= <-].
  split; [done|]. destruct (decide (id' = id)) as [|Hne]; [by left|right].
  destruct (table !! id') eqn:Hl; [|done]. destruct Hc. split; [done|by eexists].
Qed.

(** ** What the two writing views store *)

Lemma getitem_Ok data key v : getitem data key = Ok v ↔ data !! key = Some v.
Proof. unfold getitem. destruct (data !! key); split; congruence. Qed.

Lemma string_column_Ok v x : string_column v = Ok x ↔ v = JStr x.
Proof. destruct v; simpl; split; congruence. Qed.

Lemma integer_column_Ok v x : integer_column v = Ok x ↔ v = JInt x ∧ int64 x.
Proof.
  destruct v as [|z|]; simpl.
  - split; [done|]. by intros [? _].
  - case_decide as Hz; split.
    + by intros [= <-].
    + by intros [[= <-] _].
    + done.
    + intros [[= <-] ?]. done.
  - split; [done|]. by intros [? _].
Qed.

Lemma nullable_integer_column_Ok v x :
  nullable_integer_column v = Ok x ↔
  v = JNull ∧ x = None ∨ ∃ z, v = JInt z ∧ x = Some z ∧ int64 z.
Proof.
  destruct v as [|z|]; simpl.
  - split; [intros [= <-]; by left|].
    intros [[_ ->]|(z' & ? & _)]; done.
  - case_decide as Hz; split.
    + intros [= <-]. right. by exists z.
    + by intros [[? _]|(z' & [= <-] & -> & _)].
    + done.
    + intros [[? _]|(z' & [= <-] & _ & ?)]; done.
  - split; [done|]. intros [[? _]|(z' & ? & _)]; done.
Qed.

Lemma filter_by_email_None e table :
  filter_by_email (JStr e) table = None ↔
  ∀ i q, table !! i = Some q → email q ≠ e.
Proof. simpl. apply first_None. Qed.

(** Every answer of [create_person] other than its 201 leaves the database
    and the session as they were; its 201 stores one new row built from the
    payload and the session. *)
Lemma create_person_Ok data d s d' s' r :
  create_person data d s = Ok (d', s', r) →
  (d' = d ∧ s' = s ∧ r.2 ≠ 201) ∨
  ∃ uid n a e ph ad,
    sess_user_id s = Some uid ∧ uid ≠ 0 ∧
    data !! "name" = Some (JStr n) ∧ data !! "age" = Some (JInt a) ∧
    data !! "email" = Some (JStr e) ∧
    (∀ i q, persons d !! i = Some q → email q ≠ e) ∧
    nullable_string_column (dict_get data "phone" JNull) = Ok ph ∧
    nullable_string_column (dict_get data "address" JNull) = Ok ad ∧
    let person := {| name := n; age := a; email := e; phone := ph;
                     address := ad; created_by := Some uid |} in
    let id := next_id (persons d) in
    d' = {| users := users d; persons := <[id := person]> (persons d) |} ∧
    s' = s ∧
    r = (PersonMessageBody "Person created successfully" id person, 201).
Proof.
  intros Hrun. unfold create_person in Hrun.
  apply permission_required_inv in Hrun
    as [[= -> -> ->]|[[= -> -> ->]|[(uid & user & (Hs & Hne & _) & _) Hrun]]];
    [by left | by left |].
  simpl in Hrun.
  apply bind_Ok in Hrun as (ve & Hve & Hrun). apply getitem_Ok in Hve.
  destruct (filter_by_email ve (persons d)) as [?|] eqn:Hfree.
  { injection Hrun as <- <- <-. by left. }
  apply bind_Ok in Hrun as (vn & Hvn & Hrun). apply getitem_Ok in Hvn.
  apply bind_Ok in Hrun as (va & Hva & Hrun). apply getitem_Ok in Hva.
  apply bind_Ok in Hrun as (ve' & Hve' & Hrun). apply getitem_Ok in Hve'.
  apply bind_Ok in Hrun as (n & Hn & Hrun). apply string_column_Ok in Hn.
  apply bind_Ok in Hrun as (a & Ha & Hrun). apply integer_column_Ok in Ha as [Ha _].
  apply bind_Ok in Hrun as (e & He & Hrun). apply string_column_Ok in He.
  apply bind_Ok in Hrun as (ph & Hph & Hrun).
  apply bind_Ok in Hrun as (ad & Had & Hrun).
  injection Hrun as <- <- <-. simplify_eq.
  right. exists uid, n, a, e, ph, ad. rewrite Hs.
  rewrite filter_by_email_None in Hfree. by repeat split.
Qed.

(** The converse: a logged-in holder of [create] sending a well-typed
    payload with an unused email gets the row stored. *)
Lemma create_person_stores data d s uid user n a e ph ad :
  logged_in d s uid user → holds user CREATE_PERMISSION →
  data !! "name" = Some (JStr n) → data !! "age" = Some (JInt a) → int64 a →
  data !! "email" = Some (JStr e) →
  (∀ i q, persons d !! i = Some q → email q ≠ e) →
  nullable_string_column (dict_get data "phone" JNull) = Ok ph →
  nullable_string_column (dict_get data "address" JNull) = Ok ad →
  let person := {| name := n; age := a; email := e; phone := ph;
                   address := ad; created_by := Some uid |} in
  let id := next_id (persons d) in
  create_person data d s
  = Ok ({| users := users d; persons := <[id := person]> (persons d) |}, s,
        (PersonMessageBody "Person created successfully" id person, 201)).
Proof.
  intros Hin Hp Hn Ha Hrange He Hfree Hph Had. unfold create_person.
  rewrite (permission_required_granted _ _ _ _ _ _ Hin Hp).
  destruct Hin as (Hs & _ & _).
  apply filter_by_email_None in Hfree.
  unfold getitem. rewrite He. simpl. simpl in Hfree.
  rewrite Hfree, Hn, Ha. simpl. rewrite (decide_True _ _ Hrange). simpl.
  rewrite Hph, Had. simpl. by rewrite Hs.
Qed.

(** Every answer of [update_person] other than its 200 leaves the database
    and the session as they were; its 200 moves the row to the columns the
    loop assigned. *)
Lemma update_person_Ok id data d s d' s' r :
  update_person id data d s = Ok (d', s', r) →
  (d' = d ∧ s' = s ∧ r.2 ≠ 200) ∨
  ∃ p id' p',
    persons d !! id = Some p ∧
    columns_assigned data id p id' p' ∧
    (id' = id ∨ persons d !! id' = None) ∧
    (email p' = email p ∨ ∀ i q, persons d !! i = Some q → email q ≠ email p') ∧
    d' = {| users := users d; persons := <[id' := p']> (delete id (persons d)) |} ∧
    s' = s ∧
    r = (PersonMessageBody "Person updated successfully" id' p', 200).
Proof.
  intros Hrun. unfold update_person in Hrun.
  apply permission_required_inv in Hrun
    as [[= -> -> ->]|[[= -> -> ->]|[_ Hrun]]]; [by left | by left |].
  simpl in Hrun.
  destruct (persons d !! id) as [p|] eqn:Hrow;
    [|injection Hrun as <- <- <-; by left].
  apply bind_Ok in Hrun as (refused & _ & Hrun).
  destruct refused; [injection Hrun as <- <- <-; by left|].
  unfold write_person, respond in Hrun.
  match type of Hrun with
  | (if ?taken then _ else _) = _ => destruct taken eqn:Htaken
  end; simpl in Hrun; [injection Hrun as <- <- <-; by left|].
  apply bind_Ok in Hrun as ([id' p'] & Hloop & Hrun).
  apply bind_Ok in Hrun as (table & Hcommit & Hrun).
  injection Hrun as <- <- <-.
  apply update_fields_assigned in Hloop.
  apply commit_update_Ok in Hcommit as [-> Hkey].
  right. exists p, id', p'.
  split; [done|]. split; [done|]. split; [done|]. split; [|done].
  destruct Hloop as (_ & _ & _ & Hemail & _). unfold assigned in Hemail.
  destruct (data !! "email") as [ve|]; [|by left].
  apply string_column_Ok in Hemail as ->.
  case_decide as Hch; [|left; congruence].
  right. apply filter_by_email_None.
  apply bool_decide_eq_false in Htaken.
  destruct (filter_by_email (JStr (email p')) (persons d)) eqn:Hf; [|done].
  destruct Htaken. by eexists.
Qed.

(** ** The creator column *)

(** C3, as the claim states it, fails for [update_person]: the admin, who
    created record 1, sends [{"created_by": 2}] and the record is stored
    with creator 2; with [{"id": 7}] the record moves to key 7. *)
Lemma update_overwrites_creator_and_id :
  created_by ann = Some 1 ∧
  persons demo_db !! 1 = Some ann ∧
  update_person 1 {["created_by" := JInt 2]} demo_db admin_session
    = Ok ({| users := demo_users;
             persons := <[1 := retitled ann (Some 2)]> (persons demo_db) |},
          admin_session,
          (PersonMessageBody "Person updated successfully" 1 (retitled ann (Some 2)), 200)) ∧
  update_person 1 {["id" := JInt 7]} demo_db admin_session
    = Ok ({| users := demo_users;
             persons := <[7 := ann]> (delete 1 (persons demo_db)) |},
          admin_session,
          (PersonMessageBody "Person updated successfully" 7 ann, 200)).
Proof. repeat split; vm_compute; reflexivity. Qed.

(** C3, amended. A [create_person] call stores nothing or one new row whose
    [created_by] is the user id of the session, whatever the payload holds
    under [created_by]; an [update_person] call whose payload has neither
    the key [id] nor the key [created_by] stores nothing or rewrites the
    addressed row under the same key with the same [created_by]. *)
Theorem creator_stamped_and_kept :
  (∀ data d s d' s' r,
      create_person data d s = Ok (d', s', r) →
      d' = d ∨
      ∃ uid p,
        sess_user_id s = Some uid ∧ created_by p = Some uid ∧
        persons d !! next_id (persons d) = None ∧
        d' = {| users := users d;
                persons := <[next_id (persons d) := p]> (persons d) |}) ∧
  (∀ id data d s d' s' r,
      update_person id data d s = Ok (d', s', r) →
      data !! "id" = None → data !! "created_by" = None →
      d' = d ∨
      ∃ p p',
        persons d !! id = Some p ∧ created_by p' = created_by p ∧
        d' = {| users := users d; persons := <[id := p']> (persons d) |}).
Proof.
  split.
  - intros data d s d' s' r Hrun.
    apply create_person_Ok in Hrun
      as [(-> & _)|(uid & n & a & e & ph & ad & Hs & _ & _ & _ & _ & _ & _ & _ & Hout)];
      [by left|].
    simpl in Hout. destruct Hout as (-> & _ & _). right.
    eexists uid, _. split; [done|]. split; [|split; [apply next_id_fresh|done]].
    done.
  - intros id data d s d' s' r Hrun Hid Hcb.
    apply update_person_Ok in Hrun
      as [(-> & _)|(p & id' & p' & Hrow & Hcols & _ & _ & -> & _ & _)];
      [by left|].
    destruct Hcols as (Hid' & _ & _ & _ & _ & _ & Hcb').
    apply (assigned_absent _ _ _ _ _ Hid) in Hid' as ->.
    apply (assigned_absent _ _ _ _ _ Hcb) in Hcb'.
    right. exists p, p'. split; [done|]. split; [done|].
    by rewrite insert_delete_eq.
Qed.

Lemma creator_stamped_and_kept_witness :
  let d' := {| users := demo_users;
               persons := <[2 := bo_aged 26]> (persons demo_db) |} in
  d' = demo_db ∨
  ∃ p p',
    persons demo_db !! 2 = Some p ∧ created_by p' = created_by p ∧
    d' = {| users := users demo_db; persons := <[2 := p']> (persons demo_db) |}.
Proof.
  intros d'.
  apply (proj2 creator_stamped_and_kept 2 {["age" := JInt 26]} demo_db admin_session
           _ admin_session
           (PersonMessageBody "Person updated successfully" 2 (bo_aged 26), 200)).
  - vm_compute. reflexivity.
  - reflexivity.
  - reflexivity.
Defined.

(** ** Unique emails *)

Lemma emails_unique_empty : emails_unique ∅.
Proof. intros i j p q Hi. by rewrite lookup_empty in Hi. Qed.

Lemma emails_unique_delete table id :
  emails_unique table → emails_unique (delete id table).
Proof.
  intros Huniq i j p q Hi Hj.
  apply lookup_delete_Some in Hi as [_ Hi].
  apply lookup_delete_Some in Hj as [_ Hj].
  by apply (Huniq i j p q).
Qed.

Lemma emails_unique_insert table id p :
  emails_unique table →
  (∀ i q, table !! i = Some q → email q ≠ email p) →
  emails_unique (<[id := p]> table).
Proof.
  intros Huniq Hfree i j x y Hi Hj Heq.
  apply lookup_insert_Some in Hi as [[<- <-]|[Hi' Hi]];
    apply lookup_insert_Some in Hj as [[<- <-]|[Hj' Hj]].
  - done.
  - by destruct (Hfree j y Hj).
  - by destruct (Hfree i x Hi).
  - by apply (Huniq i j x y).
Qed.

Lemma emails_unique_move table id id' p p' :
  emails_unique table → table !! id = Some p →
  (email p' = email p ∨ ∀ i q, table !! i = Some q → email q ≠ email p') →
  emails_unique (<[id' := p']> (delete id table)).
Proof.
  intros Huniq Hrow Hemail.
  apply emails_unique_insert; [by apply emails_unique_delete|].
  intros i q Hi. apply lookup_delete_Some in Hi as [Hne Hi].
  destruct Hemail as [Hsame|Hfree]; [|by apply (Hfree i q)].
  rewrite Hsame. intros Heq. apply Hne. by apply (Huniq id i p q).
Qed.

(** The read-only and deleting views keep the emails unique. *)
Lemma run_emails_unique op d s d' s' r :
  run op d s = Ok (d', s', r) →
  emails_unique (persons d) → emails_unique (persons d').
Proof.
  intros Hrun Huniq. destruct op as [|id|data|id data|id]; simpl in Hrun.
  - apply permission_required_inv in Hrun
      as [[= -> -> ->]|[[= -> -> ->]|[_ Hrun]]]; [done..|].
    by injection Hrun as <- _ _.
  - apply permission_required_inv in Hrun
      as [[= -> -> ->]|[[= -> -> ->]|[_ Hrun]]]; [done..|].
    simpl in Hrun. destruct (persons d !! id); [|by injection Hrun as <- _ _].
    apply bind_Ok in Hrun as ([] & _ & Hrun); by injection Hrun as <- _ _.
  - apply create_person_Ok in Hrun
      as [(-> & _)|(uid & n & a & e & ph & ad & _ & _ & _ & _ & _ & Hfree & _ & _ & Hout)];
      [done|].
    simpl in Hout. destruct Hout as (-> & _ & _). simpl.
    by apply emails_unique_insert.
  - apply update_person_Ok in Hrun
      as [(-> & _)|(p & id' & p' & Hrow & _ & _ & Hemail & -> & _ & _)]; [done|].
    simpl. by apply (emails_unique_move _ _ _ p).
  - apply permission_required_inv in Hrun
      as [[= -> -> ->]|[[= -> -> ->]|[_ Hrun]]]; [done..|].
    simpl in Hrun. destruct (persons d !! id); [|by injection Hrun as <- _ _].
    apply bind_Ok in Hrun as ([] & _ & Hrun); injection Hrun as <- _ _; [done|].
    simpl. by apply emails_unique_delete.
Qed.

Section Reachable.

Variable generate_password_hash : string → string.
Variable check_password_hash : string → string → bool.

Lemma register_persons data d s d' s' r :
  register generate_password_hash data d s = Ok (d', s', r) → persons d' = persons d.
Proof.
  unfold register. intros Hrun.
  apply bind_Ok in Hrun as (u & _ & Hrun).
  destruct (filter_by_username u (users d)); [by injection Hrun as <- _ _|].
  apply bind_Ok in Hrun as (pw & _ & Hrun).
  apply bind_Ok in Hrun as (h & _ & Hrun).
  apply bind_Ok in Hrun as (u' & _ & Hrun).
  apply bind_Ok in Hrun as (perms & _ & Hrun).
  by injection Hrun as <- _ _.
Qed.

Lemma login_database data d s d' s' r :
  login check_password_hash data d s = Ok (d', s', r) → d' = d.
Proof.
  unfold login. intros Hrun.
  apply bind_Ok in Hrun as (u & _ & Hrun).
  destruct (filter_by_username u (users d)) as [[id user]|];
    [|by injection Hrun as <- _ _].
  apply bind_Ok in Hrun as (pw & _ & Hrun).
  apply bind_Ok in Hrun as (ok & _ & Hrun).
  destruct ok; by injection Hrun as <- _ _.
Qed.

Lemma get_user_permissions_database d s d' s' r :
  get_user_permissions d s = Ok (d', s', r) → d' = d.
Proof.
  unfold get_user_permissions. intros Hrun.
  destruct (sess_user_id s) as [n|]; [|by injection Hrun as <- _ _].
  destruct (users d !! n) as [user|]; [|done].
  by injection Hrun as <- _ _.
Qed.

Lemma handle_emails_unique r d s :
  emails_unique (persons d) →
  emails_unique (persons (handle generate_password_hash check_password_hash r d s).1.1).
Proof.
  intros Huniq. unfold handle.
  destruct (route _ _ r d s) as [[[d' s'] out]|e] eqn:Hroute; [|done].
  simpl. destruct r as [data|data| |op|]; simpl in Hroute.
  - by rewrite (register_persons _ _ _ _ _ _ Hroute).
  - by rewrite (login_database _ _ _ _ _ _ Hroute).
  - by injection Hroute as <- _ _.
  - by apply (run_emails_unique _ _ _ _ _ _ Hroute).
  - by rewrite (get_user_permissions_database _ _ _ _ _ Hroute).
Qed.

Lemma startup_persons d : persons (startup generate_password_hash d) = persons d.
Proof.
  unfold startup.
  by destruct (filter_by_username (JStr "admin") (users d)).
Qed.

Lemma reachable_emails_unique d :
  reachable generate_password_hash check_password_hash d → emails_unique (persons d).
Proof.
  induction 1 as [|r d s _ IH].
  - rewrite startup_persons. apply emails_unique_empty.
  - by apply handle_emails_unique.
Qed.

End Reachable.

Lemma filter_by_email_is_Some e table i q :
  table !! i = Some q → email q = e → is_Some (filter_by_email (JStr e) table).
Proof. intros Hi He. simpl. by apply (first_is_Some _ _ i q). Qed.

Lemma create_person_duplicate data d s uid user e i q :
  logged_in d s uid user → holds user CREATE_PERMISSION →
  data !! "email" = Some (JStr e) → persons d !! i = Some q → email q = e →
  create_person data d s = Ok (d, s, (ErrorBody "Email already exists", 400)).
Proof.
  intros Hin Hp He Hi Hq. unfold create_person.
  rewrite (permission_required_granted _ _ _ _ _ _ Hin Hp).
  unfold getitem. rewrite He. simpl.
  destruct (filter_by_email_is_Some e (persons d) i q Hi Hq) as [row Hrow].
  simpl in Hrow. by rewrite Hrow.
Qed.

Lemma update_person_duplicate id data d s uid user p e j q :
  logged_in d s uid user → holds user UPDATE_PERMISSION →
  persons d !! id = Some p → owner_or_admin p uid user →
  data !! "email" = Some (JStr e) → e ≠ email p →
  persons d !! j = Some q → email q = e →
  update_person id data d s = Ok (d, s, (ErrorBody "Email already exists", 400)).
Proof.
  intros Hin Hp Hrow Hown He Hch Hj Hq.
  rewrite (run_owner_or_admin (UpdatePerson id data) id d s uid user p
             eq_refl Hin Hp Hrow Hown : update_person id data d s = _).
  simpl. unfold write_person. rewrite He.
  rewrite decide_True by congruence.
  rewrite bool_decide_eq_true_2; [done|].
  by apply (filter_by_email_is_Some e (persons d) j q).
Qed.

Section Claims.

Variable generate_password_hash : string → string.
Variable check_password_hash : string → string → bool.

(** C5. Creating a person under an email some stored person has, and
    changing a person's email to one some stored person has, are both
    answered 400 "Email already exists" with the database untouched; and
    in every database reachable from start-up no two persons share an
    email. *)
Theorem email_uniqueness :
  (∀ data d s uid user e i q,
      logged_in d s uid user → holds user CREATE_PERMISSION →
      data !! "email" = Some (JStr e) →
      persons d !! i = Some q → email q = e →
      handle generate_password_hash check_password_hash
             (Gated (CreatePerson data)) d s
      = (d, s, (ErrorBody "Email already exists", 400))) ∧
  (∀ id data d s uid user p e j q,
      logged_in d s uid user → holds user UPDATE_PERMISSION →
      persons d !! id = Some p → owner_or_admin p uid user →
      data !! "email" = Some (JStr e) → e ≠ email p →
      persons d !! j = Some q → email q = e →
      handle generate_password_hash check_password_hash
             (Gated (UpdatePerson id data)) d s
      = (d, s, (ErrorBody "Email already exists", 400))) ∧
  (∀ d, reachable generate_password_hash check_password_hash d →
        emails_unique (persons d)).
Proof.
  split; [|split].
  - intros data d s uid user e i q Hin Hp He Hi Hq. unfold handle. simpl.
    by rewrite (create_person_duplicate data d s uid user e i q).
  - intros id data d s uid user p e j q Hin Hp Hrow Hown He Hch Hj Hq.
    unfold handle. simpl.
    by rewrite (update_person_duplicate id data d s uid user p e j q).
  - apply reachable_emails_unique.
Qed.

End Claims.

Lemma email_uniqueness_witness :
  handle demo_hash demo_check
         (Gated (CreatePerson {["email" := JStr "bo@x.com"]})) demo_db admin_session
    = (demo_db, admin_session, (ErrorBody "Email already exists", 400)) ∧
  handle demo_hash demo_check
         (Gated (UpdatePerson 1 {["email" := JStr "bo@x.com"]})) demo_db admin_session
    = (demo_db, admin_session, (ErrorBody "Email already exists", 400)) ∧
  emails_unique (persons (startup demo_hash create_all)).
Proof.
  split; [|split].
  - apply (proj1 (email_uniqueness demo_hash demo_check)
             _ demo_db admin_session 1 admin_user "bo@x.com" 2 bo).
    + exact admin_logged_in.
    + apply admin_holds. compute_done.
    + reflexivity.
    + reflexivity.
    + reflexivity.
  - apply (proj1 (proj2 (email_uniqueness demo_hash demo_check))
             1 _ demo_db admin_session 1 admin_user ann "bo@x.com" 2 bo).
    + exact admin_logged_in.
    + apply admin_holds. compute_done.
    + reflexivity.
    + by left.
    + reflexivity.
    + discriminate.
    + reflexivity.
    + reflexivity.
  - apply (proj2 (proj2 (email_uniqueness demo_hash demo_check))).
    apply reachable_startup.
Defined.

(** ** Ages *)

(** C8, as the claim states it, fails: the request is answered 201, the
    database changes, and a reachable database holds a person of age -5. *)
Lemma negative_age_is_stored :
  after_login.2 = (UserBody "Logged in successfully" 1 "admin"
                            "read,create,update,delete,admin", 200) ∧
  after_create.2
    = (PersonMessageBody "Person created successfully" 1
         {| name := "Ann"; age := -5; email := "ann@x.com"; phone := None;
            address := None; created_by := Some 1 |}, 201) ∧
  persons after_login.1.1 !! 1 = None ∧
  age <$> persons after_create.1.1 !! 1 = Some (-5) ∧
  reachable demo_hash demo_check after_create.1.1.
Proof.
  split; [|split; [|split; [|split]]]; try (vm_compute; reflexivity).
  unfold after_create, after_login, started.
  apply reachable_handle, reachable_handle, reachable_startup.
Qed.

Section Validation.

Variable generate_password_hash : string → string.
Variable check_password_hash : string → string → bool.

(** C8, amended.  [create_person] on a payload without [name], [age] or
    [email] is not answered 201 and leaves the database unchanged.  No
    view tests the sign of [age]: a logged-in holder of [create] sending
    a well-typed payload with an unused email and an integer age of 64
    bits gets the person stored with that age, whatever its sign, and an
    [update_person] answered 200 on a payload with an integer [age]
    stores that age. *)
Theorem age_stored_as_given :
  (∀ data d s,
      data !! "name" = None ∨ data !! "age" = None ∨ data !! "email" = None →
      ∃ r, handle generate_password_hash check_password_hash
                  (Gated (CreatePerson data)) d s = (d, s, r) ∧ r.2 ≠ 201) ∧
  (∀ data d s uid user n a e ph ad,
      logged_in d s uid user → holds user CREATE_PERMISSION →
      data !! "name" = Some (JStr n) →
      data !! "age" = Some (JInt a) → int64 a →
      data !! "email" = Some (JStr e) →
      (∀ i q, persons d !! i = Some q → email q ≠ e) →
      nullable_string_column (dict_get data "phone" JNull) = Ok ph →
      nullable_string_column (dict_get data "address" JNull) = Ok ad →
      int64 (next_id (persons d)) →
      let person := {| name := n; age := a; email := e; phone := ph;
                       address := ad; created_by := Some uid |} in
      let id := next_id (persons d) in
      handle generate_password_hash check_password_hash
             (Gated (CreatePerson data)) d s
      = ({| users := users d; persons := <[id := person]> (persons d) |}, s,
         (PersonMessageBody "Person created successfully" id person, 201))) ∧
  (∀ id data d s d' s' r a,
      handle generate_password_hash check_password_hash
             (Gated (UpdatePerson id data)) d s = (d', s', r) →
      r.2 = 200 → data !! "age" = Some (JInt a) →
      ∃ id' p',
        r.1 = PersonMessageBody "Person updated successfully" id' p' ∧
        persons d' !! id' = Some p' ∧ age p' = a ∧ int64 a).
Proof.
  split; [|split].
  - intros data d s Hmissing. unfold handle. simpl.
    destruct (create_person data d s) as [[[d' s'] r]|e] eqn:Hrun;
      [|by eexists].
    apply create_person_Ok in Hrun
      as [(-> & -> & Hr)|(uid & n & a & e & ph & ad & _ & _ & Hn & Ha & He & _)].
    + by exists r.
    + destruct Hmissing as [?|[?|?]]; congruence.
  - intros data d s uid user n a e ph ad Hin Hp Hn Ha Hrange He Hfree Hph Had _.
    unfold handle. simpl.
    by rewrite (create_person_stores data d s uid user n a e ph ad).
  - intros id data d s d' s' r a Hrun Hr Ha. unfold handle in Hrun.
    simpl in Hrun.
    destruct (update_person id data d s) as [[[d1 s1] r1]|e] eqn:Hup;
      [|injection Hrun as <- <- <-; done].
    injection Hrun as -> -> ->.
    apply update_person_Ok in Hup
      as [(_ & _ & Hne)|(p & id' & p' & _ & Hcols & _ & _ & -> & _ & ->)];
      [done|].
    exists id', p'. split; [done|]. simpl. rewrite lookup_insert_eq.
    split; [done|]. destruct Hcols as (_ & _ & Hage & _).
    apply (assigned_present _ _ _ _ _ _ Ha) in Hage.
    by apply integer_column_Ok in Hage as [[= <-] ?].
Qed.

End Validation.

Lemma age_stored_as_given_witness :
  (∃ r, handle demo_hash demo_check
               (Gated (CreatePerson {["name" := JStr "Cy"; "age" := JInt 4]}))
               demo_db admin_session = (demo_db, admin_session, r) ∧ r.2 ≠ 201) ∧
  handle demo_hash demo_check (Gated (CreatePerson minus_five))
         after_login.1.1 after_login.1.2 = after_create ∧
  (∃ id' p',
      (PersonMessageBody "Person updated successfully" 2 (bo_aged (-1)), 200).1
      = PersonMessageBody "Person updated successfully" id' p' ∧
      persons {| users := demo_users;
                 persons := <[2 := bo_aged (-1)]> (persons demo_db) |} !! id'
      = Some p' ∧
      age p' = -1 ∧ int64 (-1)).
Proof.
  split; [|split].
  - apply (proj1 (age_stored_as_given demo_hash demo_check)).
    right; right. reflexivity.
  - etransitivity.
    + apply (proj1 (proj2 (age_stored_as_given demo_hash demo_check))
               minus_five after_login.1.1 after_login.1.2 1 admin_user
               "Ann" (-5) "ann@x.com" None None).
      * repeat split; compute_done.
      * apply (admin_holds "create"). compute_done.
      * reflexivity.
      * reflexivity.
      * compute_done.
      * reflexivity.
      * intros i q Hi. vm_compute in Hi. discriminate Hi.
      * reflexivity.
      * reflexivity.
      * compute_done.
    + vm_compute. reflexivity.
  - apply (proj2 (proj2 (age_stored_as_given demo_hash demo_check))
             2 {["age" := JInt (-1)]} demo_db admin_session
             {| users := demo_users;
                persons := <[2 := bo_aged (-1)]> (persons demo_db) |}
             admin_session
             (PersonMessageBody "Person updated successfully" 2 (bo_aged (-1)), 200)
             (-1)).
    + vm_compute. reflexivity.
    + reflexivity.
    + reflexivity.
Defined.

(** ** Listing *)

(** C9. For a logged-in user holding [read], [get_persons] answers 200 with
    the rows of the whole table, each once: a row is listed exactly when it
    is stored, whoever created it and also when it has no creator. *)
Theorem list_is_unfiltered d s uid user :
  logged_in d s uid user → holds user READ_PERMISSION →
  ∃ rows,
    get_persons d s = Ok (d, s, (PersonsBody rows, 200)) ∧
    NoDup rows ∧
    ∀ id p, (id, p) ∈ rows ↔ persons d !! id = Some p.
Proof.
  intros Hin Hp. exists (all (persons d)). split; [|split].
  - unfold get_persons.
    rewrite (permission_required_granted _ _ _ _ _ _ Hin Hp).
    by rewrite foldl_snoc_id.
  - unfold all. rewrite merge_sort_Permutation. apply NoDup_map_to_list.
  - intros id p. unfold all. rewrite merge_sort_Permutation.
    apply elem_of_map_to_list.
Qed.

Lemma list_is_unfiltered_witness :
  ∃ rows,
    get_persons demo_db bo_session = Ok (demo_db, bo_session, (PersonsBody rows, 200)) ∧
    NoDup rows ∧
    ∀ id p, (id, p) ∈ rows ↔ persons demo_db !! id = Some p.
Proof.
  apply (list_is_unfiltered demo_db bo_session 2 bo_user).
  - exact bo_logged_in.
  - apply bo_holds. compute_done.
Defined.

(** ** Live permissions *)

(** Past its access test no view answers with the 403 of that test. *)
Lemma granted_not_refused op id person d s d' s' denial :
  target op = Some id → ownership_denied op = Some denial →
  granted op person d s ≠ Ok (d', s', denial).
Proof.
  intros Ht Hden Hrun. destruct op; simplify_eq/=.
  apply write_person_outcome in Hrun as [(? & _)|(? & ? & ? & _ & _ & _ & _ & ?)];
    done.
Qed.

(** Past the decorator no view answers with the decorator's 403. *)
Lemma granted_run_not_denied op d s uid user d' s' :
  logged_in d s uid user → holds user (required op) →
  run op d s ≠ Ok (d', s', permission_denied (required op)).
Proof.
  intros Hin Hp Hrun.
  destruct op as [|id|data|id data|id]; simpl in Hrun, Hp.
  - unfold get_persons in Hrun.
    rewrite (permission_required_granted _ _ _ _ _ _ Hin Hp) in Hrun. done.
  - unfold get_person in Hrun.
    rewrite (permission_required_granted _ _ _ _ _ _ Hin Hp) in Hrun.
    destruct (persons d !! id); [|done].
    apply bind_Ok in Hrun as ([] & _ & Hrun); done.
  - unfold create_person in Hrun.
    rewrite (permission_required_granted _ _ _ _ _ _ Hin Hp) in Hrun.
    apply bind_Ok in Hrun as (e & _ & Hrun).
    destruct (filter_by_email e (persons d)); [done|].
    do 8 (apply bind_Ok in Hrun as (? & _ & Hrun)). done.
  - unfold update_person in Hrun.
    rewrite (permission_required_granted _ _ _ _ _ _ Hin Hp) in Hrun.
    destruct (persons d !! id); [|done].
    apply bind_Ok in Hrun as ([] & _ & Hrun); [done|].
    apply write_person_outcome in Hrun
      as [(? & _)|(? & ? & ? & _ & _ & _ & _ & ?)]; done.
  - unfold delete_person in Hrun.
    rewrite (permission_required_granted _ _ _ _ _ _ Hin Hp) in Hrun.
    destruct (persons d !! id); [|done].
    apply bind_Ok in Hrun as ([] & _ & Hrun); done.
Qed.

(** A decorated view reads the session through [user_id] only. *)
Lemma run_reads_user_id_only op d s s' :
  sess_user_id s' = sess_user_id s → forget (run op d s') = forget (run op d s).
Proof.
  intros Hs.
  destruct op as [|id|data|id data|id]; simpl;
    unfold get_persons, get_person, create_person, update_person, delete_person,
      permission_required, write_person, respond;
    rewrite Hs;
    (destruct (truthy (sess_user_id s)); simpl; [|done]);
    (destruct (get_user d (sess_user_id s)) as [user|]; simpl; [|done]);
    (destruct (has_permission user _); simpl; [|done]).
  - done.
  - destruct (persons d !! id) as [p|]; simpl; [|done].
    destruct (access_refused p _ _) as [[]|]; done.
  - destruct (getitem data "email") as [e|]; simpl; [|done].
    destruct (filter_by_email e (persons d)); simpl; [done|].
    destruct (getitem data "name") as [n|]; simpl; [|done].
    destruct (getitem data "age") as [a|]; simpl; [|done].
    destruct (string_column n); simpl; [|done].
    destruct (integer_column a); simpl; [|done].
    destruct (string_column e); simpl; [|done].
    destruct (nullable_string_column _); simpl; [|done].
    destruct (nullable_string_column _); simpl; done.
  - destruct (persons d !! id) as [p|]; simpl; [|done].
    destruct (access_refused p _ _) as [[]|]; simpl; [done| |done].
    match goal with
    | |- context [if ?taken then _ else _] => destruct taken
    end; simpl; [done|].
    destruct (update_fields data id p) as [[id' p']|]; simpl; [|done].
    destruct (commit_update id id' p' (persons d)); simpl; done.
  - destruct (persons d !! id) as [p|]; simpl; [|done].
    destruct (access_refused p _ _) as [[]|]; done.
Qed.

Section Accounts_properties.

Variable generate_password_hash : string → string.
Variable check_password_hash : string → string → bool.

Lemma filter_by_username_None u table :
  filter_by_username (JStr u) table = None ↔
  ∀ i q, table !! i = Some q → username q ≠ u.
Proof. simpl. apply first_None. Qed.

Lemma filter_by_username_Some u table i q :
  filter_by_username (JStr u) table = Some (i, q) →
  table !! i = Some q ∧ username q = u.
Proof. simpl. intros Hf. by apply first_Some in Hf. Qed.

(** A successful login leaves the user's key and a copy of the user's
    permissions in the session. *)
Lemma login_session data d s d' s' message uid uname perms :
  login check_password_hash data d s
  = Ok (d', s', (UserBody message uid uname perms, 200)) →
  ∃ user,
    users d !! uid = Some user ∧ sess_user_id s' = Some uid ∧
    perms = permissions user ∧ sess_permissions s' = Some perms.
Proof.
  unfold login. intros Hrun.
  apply bind_Ok in Hrun as (u & _ & Hrun).
  destruct u as [|z|u]; try done.
  destruct (filter_by_username (JStr u) (users d)) as [[id user]|] eqn:Hf;
    [|done].
  apply filter_by_username_Some in Hf as [Hu _].
  apply bind_Ok in Hrun as (pw & _ & Hrun).
  apply bind_Ok in Hrun as (ok & _ & Hrun).
  destruct ok; [|done]. simpl in Hrun. injection Hrun as <- <- _ <- _ <-.
  by exists user.
Qed.

(** C10. What a decorated view answers to a logged-in user is decided by
    the permission string the user has in the database at the time of the
    request: the decorator's 403 is given exactly when that string lacks
    the required permission, and on a record someone else created the 403
    of the ownership test is given exactly when that string lacks [admin].
    The answer does not depend on the [username] and [permissions]
    entries of the session.  So after a successful login, with whatever
    permissions the user has in a later database, the next request is
    decided by those. *)
Theorem permissions_are_live :
  (∀ op d s uid user,
      logged_in d s uid user →
      (run op d s = Ok (d, s, permission_denied (required op))
       ↔ required op ∉ split comma (permissions user))) ∧
  (∀ op id d s uid user person denial,
      target op = Some id → ownership_denied op = Some denial →
      logged_in d s uid user →
      required op ∈ split comma (permissions user) →
      persons d !! id = Some person → created_by person ≠ Some uid →
      (run op d s = Ok (d, s, denial)
       ↔ "admin" ∉ split comma (permissions user))) ∧
  (∀ op d s s',
      sess_user_id s' = sess_user_id s →
      forget (run op d s') = forget (run op d s)) ∧
  (∀ data d0 s0 s message uid uname perms0 d user,
      login check_password_hash data d0 s0
      = Ok (d0, s, (UserBody message uid uname perms0, 200)) →
      uid ≠ 0 → users d !! uid = Some user →
      sess_permissions s = Some perms0 ∧
      (∀ op,
          run op d s = Ok (d, s, permission_denied (required op))
          ↔ required op ∉ split comma (permissions user)) ∧
      (∀ op id person denial,
          target op = Some id → ownership_denied op = Some denial →
          required op ∈ split comma (permissions user) →
          persons d !! id = Some person → created_by person ≠ Some uid →
          (run op d s = Ok (d, s, denial)
           ↔ "admin" ∉ split comma (permissions user)))).
Proof.
  assert (Hlive : ∀ op d s uid user,
      logged_in d s uid user →
      (run op d s = Ok (d, s, permission_denied (required op))
       ↔ required op ∉ split comma (permissions user))).
  { intros op d s uid user Hin. split.
    - intros Hrun Hmem.
      by apply (granted_run_not_denied op d s uid user d s Hin).
    - intros Hout.
      destruct op; by apply (permission_required_denied _ _ _ _ uid user). }
  assert (Hown : ∀ op id d s uid user person denial,
      target op = Some id → ownership_denied op = Some denial →
      logged_in d s uid user →
      required op ∈ split comma (permissions user) →
      persons d !! id = Some person → created_by person ≠ Some uid →
      (run op d s = Ok (d, s, denial)
       ↔ "admin" ∉ split comma (permissions user))).
  { intros op id d s uid user person denial Ht Hden Hin Hp Hrow Hother. split.
    - intros Hrun Hadmin.
      rewrite (run_owner_or_admin op id d s uid user person) in Hrun;
        [|done|done|done|done|by right].
      by apply (granted_not_refused op id person d s d s denial).
    - intros Hadmin.
      apply (run_stranger op id d s uid user person); try done.
      by intros [?|?]. }
  split; [done|]. split; [done|]. split; [apply run_reads_user_id_only|].
  intros data d0 s0 s message uid uname perms0 d user Hlogin Hne Hu.
  apply login_session in Hlogin as (user0 & Hu0 & Hs & _ & Hsnap).
  assert (Hin : logged_in d s uid user) by done.
  split; [done|]. split.
  - intros op. by apply (Hlive op d s uid user).
  - intros op id person denial Ht Hden Hp Hrow Hother.
    by apply (Hown op id d s uid user person).
Qed.

End Accounts_properties.

Lemma permissions_are_live_witness :
  (run (DeletePerson 2) demo_db bo_session
     = Ok (demo_db, bo_session, permission_denied (required (DeletePerson 2)))
   ↔ required (DeletePerson 2) ∉ split comma (permissions bo_user)) ∧
  (run (GetPerson 1) knighted_db bo_session
     = Ok (knighted_db, bo_session, (ErrorBody "Access denied to this resource", 403))
   ↔ "admin" ∉ split comma (permissions bo_knighted)) ∧
  forget (run (GetPerson 2) demo_db
            {| sess_user_id := Some 2; sess_username := None;
               sess_permissions := Some "admin" |})
    = forget (run (GetPerson 2) demo_db bo_session) ∧
  sess_permissions bo_session = Some "read,create" ∧
  (∀ op,
      run op promoted_db bo_session
        = Ok (promoted_db, bo_session, permission_denied (required op))
      ↔ required op ∉ split comma (permissions bo_promoted)) ∧
  (∀ op id person denial,
      target op = Some id → ownership_denied op = Some denial →
      required op ∈ split comma (permissions bo_promoted) →
      persons promoted_db !! id = Some person → created_by person ≠ Some 2 →
      (run op promoted_db bo_session = Ok (promoted_db, bo_session, denial)
       ↔ "admin" ∉ split comma (permissions bo_promoted))).
Proof.
  split; [|split; [|split]].
  - apply (proj1 (permissions_are_live demo_check)
             (DeletePerson 2) demo_db bo_session 2 bo_user).
    exact bo_logged_in.
  - apply (proj1 (proj2 (permissions_are_live demo_check))
             (GetPerson 1) 1 knighted_db bo_session 2 bo_knighted ann).
    + reflexivity.
    + reflexivity.
    + repeat split; compute_done.
    + compute_done.
    + reflexivity.
    + discriminate.
  - apply (proj1 (proj2 (proj2 (permissions_are_live demo_check)))).
    reflexivity.
  - apply (proj2 (proj2 (proj2 (permissions_are_live demo_check)))
             {["username" := JStr "u2"; "password" := JStr "u2"]}
             demo_db session_clear bo_session "Logged in successfully" 2 "u2"
             "read,create" promoted_db bo_promoted).
    + vm_compute. reflexivity.
    + discriminate.
    + reflexivity.
Defined.

(** ** Registration and login *)

Section Credentials.

Variable generate_password_hash : string → string.
Variable check_password_hash : string → string → bool.

(** C4. [register] asks for no session and no permission.  With a
    username no stored user has and a password, a payload whose
    [permissions] is a string gets a user stored with exactly that
    string, so the user holds every permission the string lists between
    commas, [admin] included; a payload without [permissions] gets the
    string [read]. *)
Theorem register_takes_permissions_verbatim data d s u pw :
  data !! "username" = Some (JStr u) →
  (∀ i q, users d !! i = Some q → username q ≠ u) →
  data !! "password" = Some (JStr pw) →
  let stored ps :=
    {| username := u; password_hash := generate_password_hash pw;
       permissions := ps |} in
  let answer ps :=
    Ok ({| users := <[next_id (users d) := stored ps]> (users d);
           persons := persons d |}, s,
        (UserBody "User registered successfully" (next_id (users d)) u ps, 201)) in
  (∀ ps, data !! "permissions" = Some (JStr ps) →
         register generate_password_hash data d s = answer ps ∧
         ∀ permission,
           has_permission (stored ps) permission = true
           ↔ permission ∈ split comma ps) ∧
  (data !! "permissions" = None →
   register generate_password_hash data d s = answer "read").
Proof.
  intros Hu Hfree Hpw stored answer.
  apply filter_by_username_None in Hfree.
  split.
  - intros ps Hps. split.
    + unfold register, getitem, dict_get. rewrite Hu. simpl. simpl in Hfree.
      by rewrite Hfree, Hpw, Hps.
    + intros permission. apply bool_decide_eq_true.
  - intros Hps.
    unfold register, getitem, dict_get. rewrite Hu. simpl. simpl in Hfree.
    by rewrite Hfree, Hpw, Hps.
Qed.

(** C6. A login under a username no stored user has and a login under a
    stored username with a password its hash rejects get the same
    answer, 401 "Invalid credentials", and change neither the database
    nor the session. *)
Theorem login_failures_alike d s1 s2 data1 data2 u1 u2 pw2 :
  data1 !! "username" = Some (JStr u1) →
  (∀ i q, users d !! i = Some q → username q ≠ u1) →
  data2 !! "username" = Some (JStr u2) →
  (∃ i q, users d !! i = Some q ∧ username q = u2) →
  data2 !! "password" = Some (JStr pw2) →
  (∀ i q, users d !! i = Some q → username q = u2 →
          check_password_hash (password_hash q) pw2 = false) →
  login check_password_hash data1 d s1
    = Ok (d, s1, (ErrorBody "Invalid credentials", 401)) ∧
  login check_password_hash data2 d s2
    = Ok (d, s2, (ErrorBody "Invalid credentials", 401)).
Proof.
  intros Hu1 Hunknown Hu2 (i & q & Hi & Hq) Hpw2 Hwrong.
  apply filter_by_username_None in Hunknown.
  split.
  - unfold login, getitem. rewrite Hu1. simpl. simpl in Hunknown.
    by rewrite Hunknown.
  - unfold login, getitem. rewrite Hu2. simpl.
    destruct (first (λ user, username user = u2) (users d)) as [[j user]|] eqn:Hf.
    + apply first_Some in Hf as [Hj Hname].
      rewrite Hpw2. simpl. by rewrite (Hwrong j user Hj Hname).
    + done.
Qed.

End Credentials.

Lemma register_takes_permissions_verbatim_witness :
  let data : payload :=
    {["username" := JStr "eve"; "password" := JStr "pw";
      "permissions" := JStr "read,delete,admin"]} in
  let eve := {| username := "eve"; password_hash := demo_hash "pw";
                permissions := "read,delete,admin" |} in
  register demo_hash data started session_clear
    = Ok ({| users := <[2 := eve]> (users started); persons := ∅ |}, session_clear,
          (UserBody "User registered successfully" 2 "eve" "read,delete,admin", 201)) ∧
  has_permission eve "admin" = true.
Proof.
  intros data eve.
  destruct (register_takes_permissions_verbatim demo_hash data started session_clear
              "eve" "pw") as [Hgiven _].
  - reflexivity.
  - intros i q Hi.
    assert (Hst : users started = {[1 := admin_user]}) by (vm_compute; reflexivity).
    rewrite Hst in Hi. apply lookup_singleton_Some in Hi as [_ <-]. discriminate.
  - reflexivity.
  - destruct (Hgiven "read,delete,admin" eq_refl) as [Hrun Hperm].
    split.
    + rewrite Hrun. vm_compute. reflexivity.
    + apply (Hperm "admin"). compute_done.
Defined.

Lemma login_failures_alike_witness :
  login demo_check {["username" := JStr "nobody"; "password" := JStr "x"]}
        demo_db session_clear
    = Ok (demo_db, session_clear, (ErrorBody "Invalid credentials", 401)) ∧
  login demo_check {["username" := JStr "admin"; "password" := JStr "x"]}
        demo_db session_clear
    = Ok (demo_db, session_clear, (ErrorBody "Invalid credentials", 401)).
Proof.
  assert (Husers : ∀ i q, users demo_db !! i = Some q →
                          i = 1 ∧ q = admin_user ∨ i = 2 ∧ q = bo_user).
  { intros i q Hi. unfold demo_db, demo_users in Hi. simpl in Hi.
    apply lookup_insert_Some in Hi as [[<- <-]|[_ Hi]]; [by right|].
    apply lookup_singleton_Some in Hi as [<- <-]. by left. }
  apply (login_failures_alike demo_check demo_db session_clear session_clear
           _ _ "nobody" "admin" "x").
  - reflexivity.
  - intros i q Hi. destruct (Husers i q Hi) as [[_ ->]|[_ ->]]; discriminate.
  - reflexivity.
  - exists 1, admin_user. split; reflexivity.
  - reflexivity.
  - intros i q Hi Hname.
    destruct (Husers i q Hi) as [[_ ->]|[_ ->]]; [reflexivity|discriminate].
Defined.


(** * Further properties of the views *)

(** ** Permission strings *)

Lemma split_nonempty sep s : split sep s ≠ [].
Proof.
  destruct s as [|c rest]; simpl; [done|].
  case_decide; [done|]. by destruct (split sep rest).
Qed.

Lemma join_cons_char sep c field fields :
  join sep (String c field :: fields) = String c (join sep (field :: fields)).
Proof. by destruct fields. Qed.

Lemma split_fields_clean sep s field :
  field ∈ split sep s → occurs sep field = false.
Proof.
  revert field. induction s as [|c rest IH]; simpl; intros field Hin.
  - by apply list_elem_of_singleton in Hin as ->.
  - case_decide as Hc.
    + apply elem_of_cons in Hin as [->|Hin]; [done|]. by apply IH.
    + pose proof (split_nonempty sep rest) as Hne.
      destruct (split sep rest) as [|f fs] eqn:Hs; [done|].
      apply elem_of_cons in Hin as [->|Hin].
      * simpl. rewrite decide_False by done. apply IH. left.
      * apply IH. by right.
Qed.

(** Splitting a string at a character and joining the fields with that
    character gives the string back, and no field holds the character. *)
Theorem split_join sep s :
  join sep (split sep s) = s ∧ ∀ field, field ∈ split sep s → occurs sep field = false.
Proof.
  split; [|apply split_fields_clean].
  induction s as [|c rest IH]; simpl; [done|].
  pose proof (split_nonempty sep rest) as Hne.
  case_decide as Hc.
  - destruct (split sep rest) as [|f fs] eqn:Hs; [done|].
    subst c. simpl. simpl in IH. by rewrite IH.
  - destruct (split sep rest) as [|f fs] eqn:Hs; [done|].
    rewrite join_cons_char. by rewrite IH.
Qed.

Lemma split_no_separator sep s : occurs sep s = false → split sep s = [s].
Proof.
  induction s as [|c rest IH]; simpl; [done|].
  case_decide; [done|]. intros Hrest. by rewrite (IH Hrest).
Qed.

(** A permission name with a comma in it is held by no user, and a user
    whose permission string has no comma holds that string as a name and
    nothing else. *)
Theorem has_permission_tokens user permission :
  (occurs comma permission = true → has_permission user permission = false) ∧
  (occurs comma (permissions user) = false →
   (has_permission user permission = true ↔ permission = permissions user)).
Proof.
  split.
  - intros Hocc. apply bool_decide_eq_false_2. intros Hin.
    apply split_fields_clean in Hin. congruence.
  - intros Hfree. unfold has_permission. rewrite bool_decide_eq_true.
    rewrite (split_no_separator _ _ Hfree). apply list_elem_of_singleton.
Qed.

Lemma has_permission_tokens_witness :
  has_permission admin_user "read,create" = false ∧
  (has_permission {| username := "eve"; password_hash := "h"; permissions := "read" |}
                  "read" = true
   ↔ "read" = "read").
Proof.
  split.
  - apply (proj1 (has_permission_tokens admin_user "read,create")). reflexivity.
  - apply (proj2 (has_permission_tokens
                    {| username := "eve"; password_hash := "h"; permissions := "read" |}
                    "read")).
    reflexivity.
Defined.

Lemma split_join_witness :
  join comma (split comma "read,,admin") = "read,,admin" ∧
  occurs comma "admin" = false.
Proof.
  split.
  - apply (proj1 (split_join comma "read,,admin")).
  - apply (proj2 (split_join comma "read,,admin")). compute_done.
Defined.

(** ** Edges of the decorator *)

(** A session whose [user_id] is 0 is read as no session: 401.  A session
    whose [user_id] names no stored user is answered the 403 of a missing
    permission, not 401.  In both cases the database and the session are
    left as they were, whatever the view and its arguments. *)
Theorem decorator_edges op d s :
  (sess_user_id s = Some 0 → run op d s = Ok (d, s, unauthenticated)) ∧
  (∀ uid, sess_user_id s = Some uid → uid ≠ 0 → users d !! uid = None →
          run op d s = Ok (d, s, permission_denied (required op))).
Proof.
  split.
  - intros Hs. apply guard_order_anonymous. by rewrite Hs.
  - intros uid Hs Hne Hu.
    assert (Ht : truthy (sess_user_id s) = true).
    { rewrite Hs. simpl. apply negb_true_iff. by apply Z.eqb_neq. }
    destruct op; simpl;
      unfold get_persons, get_person, create_person, update_person, delete_person,
        permission_required;
      rewrite Ht; simpl; unfold get_user; by rewrite Hs, Hu.
Qed.

Lemma decorator_edges_witness :
  run ListPersons demo_db
      {| sess_user_id := Some 0; sess_username := None; sess_permissions := None |}
    = Ok (demo_db,
          {| sess_user_id := Some 0; sess_username := None; sess_permissions := None |},
          unauthenticated) ∧
  run (DeletePerson 1) demo_db
      {| sess_user_id := Some 9; sess_username := Some "admin";
         sess_permissions := Some "read,create,update,delete,admin" |}
    = Ok (demo_db,
          {| sess_user_id := Some 9; sess_username := Some "admin";
             sess_permissions := Some "read,create,update,delete,admin" |},
          permission_denied "delete").
Proof.
  split.
  - apply (proj1 (decorator_edges ListPersons demo_db _)). reflexivity.
  - apply (proj2 (decorator_edges (DeletePerson 1) demo_db _) 9).
    + reflexivity.
    + discriminate.
    + reflexivity.
Defined.

(** ** Unknown records *)

Lemma run_unknown_record op id d s uid user :
  target op = Some id → logged_in d s uid user → holds user (required op) →
  persons d !! id = None →
  run op d s = Ok (d, s, (NotFoundBody, 404)).
Proof.
  intros Ht Hin Hp Hrow.
  destruct op; simplify_eq/=; unfold get_person, update_person, delete_person;
    rewrite (permission_required_granted _ _ _ _ _ _ Hin Hp);
    by rewrite Hrow.
Qed.



(** ** The permissions of the current user *)

(** [get_user_permissions] asks for no permission.  Without a [user_id]
    key in the session it answers 401 "Not authenticated"; with a key
    naming a stored user it answers that user's name and the fields of the
    permission string the database holds now; with a key naming no stored
    user it raises.  It never changes the database or the session. *)
Theorem get_user_permissions_answers d s :
  (sess_user_id s = None →
   get_user_permissions d s = Ok (d, s, (ErrorBody "Not authenticated", 401))) ∧
  (∀ uid user,
      sess_user_id s = Some uid → users d !! uid = Some user →
      get_user_permissions d s
      = Ok (d, s, (PermissionsBody (username user) (split comma (permissions user)), 200))) ∧
  (∀ uid,
      sess_user_id s = Some uid → users d !! uid = None →
      get_user_permissions d s = Raise AttributeError).
Proof.
  unfold get_user_permissions. split; [|split].
  - by intros ->.
  - intros uid user -> Hu. by rewrite Hu.
  - intros uid -> Hu. by rewrite Hu.
Qed.

Lemma get_user_permissions_answers_witness :
  get_user_permissions demo_db session_clear
    = Ok (demo_db, session_clear, (ErrorBody "Not authenticated", 401)) ∧
  get_user_permissions promoted_db bo_session
    = Ok (promoted_db, bo_session,
          (PermissionsBody "u2" ["read"; "create"; "delete"], 200)).
Proof.
  split.
  - apply (proj1 (get_user_permissions_answers demo_db session_clear)). reflexivity.
  - apply (proj1 (proj2 (get_user_permissions_answers promoted_db bo_session))
             2 bo_promoted); reflexivity.
Defined.

(** ** Deleting and creating records *)

(** After a delete that passed its access test the record is gone: the
    same user then gets 404 from a delete of the same id, every other
    record is stored as before, and so is every user. *)
Theorem delete_person_removes id d s uid user person :
  logged_in d s uid user → holds user DELETE_PERMISSION →
  persons d !! id = Some person → owner_or_admin person uid user →
  ∃ d',
    delete_person id d s = Ok (d', s, (MessageBody "Person deleted successfully", 200)) ∧
    persons d' !! id = None ∧
    (∀ j, j ≠ id → persons d' !! j = persons d !! j) ∧
    users d' = users d ∧
    delete_person id d' s = Ok (d', s, (NotFoundBody, 404)).
Proof.
  intros Hin Hp Hrow Hown.
  exists {| users := users d; persons := delete id (persons d) |}.
  split; [|split; [|split; [|split]]].
  - by apply (run_owner_or_admin (DeletePerson id) id d s uid user person).
  - apply lookup_delete_eq.
  - intros j Hj. simpl. by apply lookup_delete_ne.
  - done.
  - apply (run_unknown_record (DeletePerson id) id _ s uid user);
      [done|done|done|]. apply lookup_delete_eq.
Qed.

Lemma delete_person_removes_witness :
  ∃ d',
    delete_person 2 demo_db admin_session
      = Ok (d', admin_session, (MessageBody "Person deleted successfully", 200)) ∧
    persons d' !! 2 = None ∧
    (∀ j, j ≠ 2 → persons d' !! j = persons demo_db !! j) ∧
    users d' = users demo_db ∧
    delete_person 2 d' admin_session = Ok (d', admin_session, (NotFoundBody, 404)).
Proof.
  apply (delete_person_removes 2 demo_db admin_session 1 admin_user bo).
  - exact admin_logged_in.
  - apply admin_holds. compute_done.
  - reflexivity.
  - right. apply admin_holds. compute_done.
Defined.

(** A create answered 201 stores the new person under a key that was not
    in use, changes no stored person and no user, and its creator, when
    holding [read], gets the person back from [get_person] under the id
    the answer names. *)
Theorem create_person_then_get data d s uid user d' s' message id person :
  logged_in d s uid user → holds user READ_PERMISSION →
  create_person data d s = Ok (d', s', (PersonMessageBody message id person, 201)) →
  persons d !! id = None ∧
  (∀ j, j ≠ id → persons d' !! j = persons d !! j) ∧
  users d' = users d ∧
  get_person id d' s' = Ok (d', s', (PersonBody id person, 200)).
Proof.
  intros Hin Hread Hrun.
  apply create_person_Ok in Hrun
    as [(_ & _ & Hne)|(uid' & n & a & e & ph & ad & Hs & _ & _ & _ & _ & _ & _ & _ & Hout)];
    [done|].
  simpl in Hout. destruct Hout as (-> & -> & [= _ -> ->]).
  assert (uid' = uid) as -> by (destruct Hin as (Hs' & _); congruence).
  split; [apply next_id_fresh|]. split; [|split; [done|]].
  - intros j Hj. simpl. by apply lookup_insert_ne.
  - set (d' := {| users := users d; persons := _ |}).
    assert (Hin' : logged_in d' s uid user) by done.
    rewrite (run_owner_or_admin (GetPerson (next_id (persons d))) _ d' s uid user _
               eq_refl Hin' Hread (lookup_insert_eq _ _ _) (or_introl eq_refl)
             : get_person _ d' s = _).
    done.
Qed.

Lemma create_person_then_get_witness :
  persons after_login.1.1 !! 1 = None ∧
  (∀ j, j ≠ 1 → persons after_create.1.1 !! j = persons after_login.1.1 !! j) ∧
  users after_create.1.1 = users after_login.1.1 ∧
  get_person 1 after_create.1.1 after_create.1.2
    = Ok (after_create.1.1, after_create.1.2,
          (PersonBody 1 {| name := "Ann"; age := -5; email := "ann@x.com";
                          phone := None; address := None; created_by := Some 1 |}, 200)).
Proof.
  apply (create_person_then_get minus_five after_login.1.1 after_login.1.2 1 admin_user
           after_create.1.1 after_create.1.2 "Person created successfully").
  - repeat split; compute_done.
  - apply admin_holds. compute_done.
  - vm_compute. reflexivity.
Defined.

(** ** The update loop, in the other direction *)

Lemma assigned_insert_ne_inv {A} (col : json → result A) data key k v old new :
  k ≠ key → assigned col (<[k := v]> data) key old new → assigned col data key old new.
Proof. intros Hne. unfold assigned. by rewrite lookup_insert_ne. Qed.

Lemma assigned_insert_eq_inv {A} (col : json → result A) data key v old new :
  assigned col (<[key := v]> data) key old new → col v = Ok new.
Proof. unfold assigned. by rewrite lookup_insert_eq. Qed.

Lemma assigned_fresh {A} (col : json → result A) data key old :
  data !! key = None → assigned col data key old old.
Proof. unfold assigned. by intros ->. Qed.

Lemma setattr_other key value id p :
  key ∉ ["id"; "name"; "age"; "email"; "phone"; "address"; "created_by"] →
  setattr key value (Ok (id, p)) = Ok (id, p).
Proof.
  intros Hout. unfold setattr. simpl.
  repeat (case_decide; [subst; exfalso; apply Hout; set_solver|]). done.
Qed.

Lemma update_fields_complete data id p id' p' :
  columns_assigned data id p id' p' → update_fields data id p = Ok (id', p').
Proof.
  unfold update_fields. revert id' p'.
  apply (map_fold_weak_ind
           (λ r m, ∀ id' p', columns_assigned m id p id' p' → r = Ok (id', p'))).
  - intros id' p' (Hid & Hname & Hage & Hemail & Hphone & Haddr & Hcb).
    unfold assigned in *. rewrite lookup_empty in *.
    destruct p, p'; simpl in *. by subst.
  - intros k v m r Hk IH id' p' (Hid & Hname & Hage & Hemail & Hphone & Haddr & Hcb).
    destruct (decide (k ∈ ["id"; "name"; "age"; "email"; "phone"; "address"; "created_by"]))
      as [Hcol|Hother].
    + repeat (apply elem_of_cons in Hcol as [->|Hcol]);
        [..|by apply elem_of_nil in Hcol].
      * apply assigned_insert_eq_inv in Hid.
        rewrite (IH id p'); [by unfold setattr; simpl; rewrite Hid|].
        repeat split; first [by apply assigned_fresh
              | eapply assigned_insert_ne_inv; [|eassumption]; done].
      * apply assigned_insert_eq_inv in Hname.
        rewrite (IH id' {| name := name p; age := age p'; email := email p';
                           phone := phone p'; address := address p';
                           created_by := created_by p' |});
          [unfold setattr; simpl; rewrite Hname; by destruct p'|].
        repeat split; first [by apply assigned_fresh
              | eapply assigned_insert_ne_inv; [|eassumption]; done].
      * apply assigned_insert_eq_inv in Hage.
        rewrite (IH id' {| name := name p'; age := age p; email := email p';
                           phone := phone p'; address := address p';
                           created_by := created_by p' |});
          [unfold setattr; simpl; rewrite Hage; by destruct p'|].
        repeat split; first [by apply assigned_fresh
              | eapply assigned_insert_ne_inv; [|eassumption]; done].
      * apply assigned_insert_eq_inv in Hemail.
        rewrite (IH id' {| name := name p'; age := age p'; email := email p;
                           phone := phone p'; address := address p';
                           created_by := created_by p' |});
          [unfold setattr; simpl; rewrite Hemail; by destruct p'|].
        repeat split; first [by apply assigned_fresh
              | eapply assigned_insert_ne_inv; [|eassumption]; done].
      * apply assigned_insert_eq_inv in Hphone.
        rewrite (IH id' {| name := name p'; age := age p'; email := email p';
                           phone := phone p; address := address p';
                           created_by := created_by p' |});
          [unfold setattr; simpl; rewrite Hphone; by destruct p'|].
        repeat split; first [by apply assigned_fresh
              | eapply assigned_insert_ne_inv; [|eassumption]; done].
      * apply assigned_insert_eq_inv in Haddr.
        rewrite (IH id' {| name := name p'; age := age p'; email := email p';
                           phone := phone p'; address := address p;
                           created_by := created_by p' |});
          [unfold setattr; simpl; rewrite Haddr; by destruct p'|].
        repeat split; first [by apply assigned_fresh
              | eapply assigned_insert_ne_inv; [|eassumption]; done].
      * apply assigned_insert_eq_inv in Hcb.
        rewrite (IH id' {| name := name p'; age := age p'; email := email p';
                           phone := phone p'; address := address p';
                           created_by := created_by p |});
          [unfold setattr; simpl; rewrite Hcb; by destruct p'|].
        repeat split; first [by apply assigned_fresh
              | eapply assigned_insert_ne_inv; [|eassumption]; done].
    + rewrite (IH id' p'); [by apply setattr_other|].
      repeat split; eapply assigned_insert_ne_inv; try eassumption;
        intros ->; apply Hother; set_solver.
Qed.

Lemma update_person_stores id data d s uid user p id' p' :
  logged_in d s uid user → holds user UPDATE_PERMISSION →
  persons d !! id = Some p → owner_or_admin p uid user →
  columns_assigned data id p id' p' →
  (id' = id ∨ persons d !! id' = None) →
  (email p' = email p ∨ ∀ i q, persons d !! i = Some q → email q ≠ email p') →
  update_person id data d s
  = Ok ({| users := users d; persons := <[id' := p']> (delete id (persons d)) |}, s,
        (PersonMessageBody "Person updated successfully" id' p', 200)).
Proof.
  intros Hin Hp Hrow Hown Hcols Hkey Hemail.
  rewrite (run_owner_or_admin (UpdatePerson id data) id d s uid user p
             eq_refl Hin Hp Hrow Hown : update_person id data d s = _).
  simpl. unfold write_person.
  assert (Htaken :
    match data !! "email" with
    | Some e =>
        if decide (e ≠ JStr (email p)) then
          bool_decide (is_Some (filter_by_email e (persons d)))
        else false
    | None => false
    end = false).
  { destruct Hcols as (_ & _ & _ & He & _). unfold assigned in He.
    destruct (data !! "email") as [e|]; [|done].
    apply string_column_Ok in He as ->.
    case_decide as Hch; [|done].
    destruct Hemail as [Hsame|Hfree]; [congruence|].
    apply bool_decide_eq_false_2. apply filter_by_email_None in Hfree.
    rewrite Hfree. by intros [? ?]. }
  rewrite Htaken. rewrite (update_fields_complete _ _ _ _ _ Hcols). simpl.
  unfold commit_update. rewrite decide_False; [done|].
  intros [Hne [x Hx]]. destruct Hkey as [?|Hfree]; congruence.
Qed.

(** An update by the creator or an admin holding [update], with a payload
    whose keys all name columns and whose values have the types of their
    columns, is answered 200 when the new [id] is the old one or not in
    use and the new email is the old one or held by no stored person.
    The row is then stored under the new [id] with each column at the
    payload's value, or at its old value when the payload has no such
    key; every other person and every user is stored as before. *)
Theorem update_person_on_columns id data d s uid user p id' p' :
  logged_in d s uid user → holds user UPDATE_PERMISSION →
  persons d !! id = Some p → owner_or_admin p uid user →
  (∀ key, is_Some (data !! key) → key ∈ person_columns) →
  columns_assigned data id p id' p' →
  (id' = id ∨ persons d !! id' = None) →
  (email p' = email p ∨ ∀ i q, persons d !! i = Some q → email q ≠ email p') →
  let d' := {| users := users d; persons := <[id' := p']> (delete id (persons d)) |} in
  update_person id data d s
    = Ok (d', s, (PersonMessageBody "Person updated successfully" id' p', 200)) ∧
  persons d' !! id' = Some p' ∧
  (∀ j, j ≠ id → j ≠ id' → persons d' !! j = persons d !! j) ∧
  users d' = users d.
Proof.
  intros Hin Hp Hrow Hown _ Hcols Hkey Hemail d'. split; [|split; [|split]].
  - by apply (update_person_stores id data d s uid user p).
  - apply lookup_insert_eq.
  - intros j Hj Hj'. simpl.
    rewrite lookup_insert_ne by done. by apply lookup_delete_ne.
  - done.
Qed.

Lemma update_person_on_columns_witness :
  let d' := {| users := demo_users;
               persons := <[7 := bo_aged 26]> (delete 2 (persons demo_db)) |} in
  update_person 2 {["age" := JInt 26; "id" := JInt 7]} demo_db admin_session
    = Ok (d', admin_session,
          (PersonMessageBody "Person updated successfully" 7 (bo_aged 26), 200)) ∧
  persons d' !! 7 = Some (bo_aged 26) ∧
  (∀ j, j ≠ 2 → j ≠ 7 → persons d' !! j = persons demo_db !! j) ∧
  users d' = users demo_db.
Proof.
  apply (update_person_on_columns 2 _ demo_db admin_session 1 admin_user bo 7 (bo_aged 26)).
  - exact admin_logged_in.
  - apply admin_holds. compute_done.
  - reflexivity.
  - right. apply admin_holds. compute_done.
  - intros key [v Hv].
    apply lookup_insert_Some in Hv as [[<- _]|[_ Hv]]; [compute_done|].
    apply lookup_singleton_Some in Hv as [<- _]. compute_done.
  - repeat split; compute_done.
  - right. reflexivity.
  - left. reflexivity.
Defined.

(** An update with an empty payload by the creator or an admin holding
    [update] is answered 200 with the record as stored, and changes
    nothing. *)
Theorem update_person_empty_payload id d s uid user p :
  logged_in d s uid user → holds user UPDATE_PERMISSION →
  persons d !! id = Some p → owner_or_admin p uid user →
  update_person id ∅ d s
  = Ok (d, s, (PersonMessageBody "Person updated successfully" id p, 200)).
Proof.
  intros Hin Hp Hrow Hown.
  rewrite (update_person_stores id ∅ d s uid user p id p Hin Hp Hrow Hown).
  - rewrite insert_delete_eq, (insert_id _ _ _ Hrow). by destruct d.
  - repeat split.
  - by left.
  - by left.
Qed.

Lemma update_person_empty_payload_witness :
  update_person 2 ∅ demo_db admin_session
  = Ok (demo_db, admin_session,
        (PersonMessageBody "Person updated successfully" 2 bo, 200)).
Proof.
  apply (update_person_empty_payload 2 demo_db admin_session 1 admin_user bo).
  - exact admin_logged_in.
  - apply admin_holds. compute_done.
  - reflexivity.
  - right. apply admin_holds. compute_done.
Defined.

(** ** What a request leaves alone *)

(** The decorated views never write the user table or the session. *)
Lemma run_frame op d s d' s' r :
  run op d s = Ok (d', s', r) → users d' = users d ∧ s' = s.
Proof.
  intros Hrun. destruct op as [|id|data|id data|id]; simpl in Hrun.
  - apply permission_required_inv in Hrun
      as [[= -> -> ->]|[[= -> -> ->]|[_ Hrun]]]; [done..|].
    by injection Hrun as <- <- _.
  - apply permission_required_inv in Hrun
      as [[= -> -> ->]|[[= -> -> ->]|[_ Hrun]]]; [done..|].
    simpl in Hrun. destruct (persons d !! id); [|by injection Hrun as <- <- _].
    apply bind_Ok in Hrun as ([] & _ & Hrun); by injection Hrun as <- <- _.
  - apply create_person_Ok in Hrun
      as [(-> & -> & _)|(? & ? & ? & ? & ? & ? & _ & _ & _ & _ & _ & _ & _ & _ & Hout)];
      [done|].
    simpl in Hout. by destruct Hout as (-> & -> & _).
  - apply update_person_Ok in Hrun
      as [(-> & -> & _)|(? & ? & ? & _ & _ & _ & _ & -> & -> & _)]; done.
  - apply permission_required_inv in Hrun
      as [[= -> -> ->]|[[= -> -> ->]|[_ Hrun]]]; [done..|].
    simpl in Hrun. destruct (persons d !! id); [|by injection Hrun as <- <- _].
    apply bind_Ok in Hrun as ([] & _ & Hrun); by injection Hrun as <- <- _.
Qed.

(** The listing and the single-record read never write the database. *)
Lemma run_read_only op d s d' s' r :
  required op = READ_PERMISSION → run op d s = Ok (d', s', r) → d' = d.
Proof.
  intros Hread Hrun. destruct op as [|id|data|id data|id]; try done; simpl in Hrun.
  - apply permission_required_inv in Hrun
      as [[= -> -> ->]|[[= -> -> ->]|[_ Hrun]]]; [done..|].
    by injection Hrun as <- _ _.
  - apply permission_required_inv in Hrun
      as [[= -> -> ->]|[[= -> -> ->]|[_ Hrun]]]; [done..|].
    simpl in Hrun. destruct (persons d !! id); [|by injection Hrun as <- _ _].
    apply bind_Ok in Hrun as ([] & _ & Hrun); by injection Hrun as <- _ _.
Qed.

Lemma defaulted_string_column_Ok default v x :
  defaulted_string_column default v = Ok x ↔ v = JStr x ∨ v = JNull ∧ x = default.
Proof. destruct v; simpl; split; intros H; try destruct H as [?|[? ?]]; naive_solver. Qed.

Lemma keys_positive_insert {A} (table : gmap Z A) id x :
  keys_positive table → 1 ≤ id → keys_positive (<[id := x]> table).
Proof.
  intros Hpos Hid i y Hi.
  apply lookup_insert_Some in Hi as [[<- _]|[_ Hi]]; [done|]. by apply (Hpos i y).
Qed.

Lemma max_key_attained {A} (table : gmap Z A) m :
  max_key table = Some m → is_Some (table !! m).
Proof.
  unfold max_key. revert m.
  apply (map_fold_weak_ind (λ r t, ∀ m, r = Some m → is_Some (t !! m))).
  - done.
  - intros k y t r Hk IH m [= <-]. destruct r as [m0|].
    + destruct (Z.max_spec k m0) as [[_ ->]|[_ ->]].
      * destruct (decide (k = m0)) as [->|Hne].
        -- rewrite lookup_insert_eq. by eexists.
        -- rewrite lookup_insert_ne by done. by apply IH.
      * rewrite lookup_insert_eq. by eexists.
    + rewrite lookup_insert_eq. by eexists.
Qed.

Lemma next_id_positive {A} (table : gmap Z A) :
  keys_positive table → 1 ≤ next_id table.
Proof.
  intros Hpos. unfold next_id. destruct (max_key table) as [m|] eqn:Hm; [|done].
  destruct (max_key_attained _ _ Hm) as [x Hx]. pose proof (Hpos m x Hx). lia.
Qed.

Lemma usernames_unique_insert table id user :
  usernames_unique table →
  (∀ i q, table !! i = Some q → username q ≠ username user) →
  usernames_unique (<[id := user]> table).
Proof.
  intros Huniq Hfree i j x y Hi Hj Heq.
  apply lookup_insert_Some in Hi as [[<- <-]|[Hi' Hi]];
    apply lookup_insert_Some in Hj as [[<- <-]|[Hj' Hj]].
  - done.
  - by destruct (Hfree j y Hj).
  - by destruct (Hfree i x Hi).
  - by apply (Huniq i j x y).
Qed.

(** Under unique usernames the query by username finds the one user. *)
Lemma filter_by_username_unique table u i q :
  usernames_unique table → table !! i = Some q → username q = u →
  filter_by_username (JStr u) table = Some (i, q).
Proof.
  intros Huniq Hi Hq. simpl.
  destruct (first_is_Some (λ user, username user = u) table i q Hi Hq) as [[j q'] Hf].
  rewrite Hf. apply first_Some in Hf as [Hj Hq'].
  assert (j = i) as -> by (apply (Huniq j i q' q); congruence).
  congruence.
Qed.

(** ** Accounts *)

Section Accounts_more.

Variable generate_password_hash : string → string.
Variable check_password_hash : string → string → bool.

(** Every answer of [register] other than its 201 leaves the database as
    it was; its 201 stores one new user. *)
Lemma register_Ok data d s d' s' r :
  register generate_password_hash data d s = Ok (d', s', r) →
  s' = s ∧
  ((d' = d ∧ r.2 ≠ 201) ∨
   ∃ u pw perms,
     data !! "username" = Some (JStr u) ∧ data !! "password" = Some (JStr pw) ∧
     (∀ i q, users d !! i = Some q → username q ≠ u) ∧
     defaulted_string_column READ_PERMISSION
       (dict_get data "permissions" (JStr READ_PERMISSION)) = Ok perms ∧
     let user := {| username := u; password_hash := generate_password_hash pw;
                    permissions := perms |} in
     d' = {| users := <[next_id (users d) := user]> (users d); persons := persons d |} ∧
     r = (UserBody "User registered successfully" (next_id (users d)) u perms, 201)).
Proof.
  unfold register. intros Hrun.
  apply bind_Ok in Hrun as (vu & Hvu & Hrun). apply getitem_Ok in Hvu.
  destruct (filter_by_username vu (users d)) eqn:Hfree;
    [injection Hrun as <- <- <-; split; [done|by left]|].
  apply bind_Ok in Hrun as (vpw & Hvpw & Hrun). apply getitem_Ok in Hvpw.
  apply bind_Ok in Hrun as (h & Hh & Hrun).
  apply bind_Ok in Hrun as (u & Hu & Hrun). apply string_column_Ok in Hu as ->.
  apply bind_Ok in Hrun as (perms & Hperms & Hrun).
  injection Hrun as <- <- <-. split; [done|]. right.
  destruct vpw as [|z|pw]; try done. injection Hh as <-.
  exists u, pw, perms. rewrite filter_by_username_None in Hfree. by repeat split.
Qed.

(** Registering under a username some stored user has is answered 400
    "Username already exists", whatever else the payload holds or lacks,
    and changes nothing. *)
Theorem register_duplicate_username data d s u i q :
  data !! "username" = Some (JStr u) → users d !! i = Some q → username q = u →
  register generate_password_hash data d s
  = Ok (d, s, (ErrorBody "Username already exists", 400)).
Proof.
  intros Hu Hi Hq. unfold register, getitem. rewrite Hu. simpl.
  destruct (first_is_Some (λ user, username user = u) (users d) i q Hi Hq) as [row Hrow].
  by rewrite Hrow.
Qed.

Lemma login_Ok data d s d' s' r :
  login check_password_hash data d s = Ok (d', s', r) →
  d' = d ∧
  ((s' = s ∧ r = (ErrorBody "Invalid credentials", 401)) ∨
   ∃ i q pw,
     users d !! i = Some q ∧ data !! "username" = Some (JStr (username q)) ∧
     data !! "password" = Some (JStr pw) ∧
     check_password_hash (password_hash q) pw = true ∧
     s' = {| sess_user_id := Some i; sess_username := Some (username q);
             sess_permissions := Some (permissions q) |} ∧
     r = (UserBody "Logged in successfully" i (username q) (permissions q), 200)).
Proof.
  unfold login. intros Hrun.
  apply bind_Ok in Hrun as (vu & Hvu & Hrun). apply getitem_Ok in Hvu.
  destruct (filter_by_username vu (users d)) as [[i q]|] eqn:Hf;
    [|injection Hrun as <- <- <-; split; [done|by left]].
  apply bind_Ok in Hrun as (vpw & Hvpw & Hrun). apply getitem_Ok in Hvpw.
  apply bind_Ok in Hrun as (ok & Hok & Hrun).
  destruct ok; simpl in Hrun; injection Hrun as <- <- <-;
    (split; [done|]); [|by left].
  right. destruct vu as [|z|u]; try done.
  apply filter_by_username_Some in Hf as [Hi <-].
  destruct vpw as [|z|pw]; try done. injection Hok as Hok.
  by exists i, q, pw.
Qed.

(** No request changes or removes a stored user: whatever the request,
    the session and the answer, every user stored before is stored after
    under the same key with the same name, password hash and
    permissions. *)
Theorem users_are_kept r d s i q :
  users d !! i = Some q →
  users (handle generate_password_hash check_password_hash r d s).1.1 !! i = Some q.
Proof.
  intros Hi. unfold handle.
  destruct (route _ _ r d s) as [[[d' s'] out]|e] eqn:Hroute; [|done].
  simpl. destruct r as [data|data| |op|]; simpl in Hroute.
  - apply register_Ok in Hroute as [_ [[-> _]|(u & pw & perms & _ & _ & _ & _ & Hout)]];
      [done|].
    simpl in Hout. destruct Hout as [-> _]. simpl.
    rewrite lookup_insert_ne; [done|].
    intros Heq. pose proof (next_id_fresh (users d)) as Hfresh. congruence.
  - by apply login_Ok in Hroute as [-> _].
  - by injection Hroute as <- _ _.
  - apply run_frame in Hroute as [Hu _]. by rewrite Hu.
  - by apply get_user_permissions_database in Hroute as ->.
Qed.

(** Only [login] and [logout] write the session, and [login], [logout],
    the two reading views and the permissions view never write the
    database. *)
Theorem request_frames r d s :
  ((∀ data, r ≠ Login data) → r ≠ Logout →
   (handle generate_password_hash check_password_hash r d s).1.2 = s) ∧
  (match r with
   | Login _ | Logout | GetUserPermissions => True
   | Gated op => required op = READ_PERMISSION
   | Register _ => False
   end →
   (handle generate_password_hash check_password_hash r d s).1.1 = d).
Proof.
  unfold handle. split.
  - intros Hlogin Hlogout.
    destruct (route _ _ r d s) as [[[d' s'] out]|e] eqn:Hroute; [|done].
    simpl. destruct r as [data|data| |op|]; simpl in Hroute.
    + by apply register_Ok in Hroute as [-> _].
    + by destruct (Hlogin data).
    + done.
    + by apply run_frame in Hroute as [_ ->].
    + unfold get_user_permissions in Hroute.
      destruct (sess_user_id s) as [n|]; [|by injection Hroute as _ <- _].
      destruct (users d !! n); [|done]. by injection Hroute as _ <- _.
  - intros Hkind.
    destruct (route _ _ r d s) as [[[d' s'] out]|e] eqn:Hroute; [|done].
    simpl. destruct r as [data|data| |op|]; simpl in Hroute; try done.
    + by apply login_Ok in Hroute as [-> _].
    + by injection Hroute as <- _ _.
    + by apply (run_read_only op d s d' s' out).
    + by apply get_user_permissions_database in Hroute.
Qed.

Lemma startup_users d i q :
  users d !! i = Some q → users (startup generate_password_hash d) !! i = Some q.
Proof.
  intros Hi. unfold startup.
  destruct (filter_by_username (JStr "admin") (users d)); [done|]. simpl.
  rewrite lookup_insert_ne; [done|].
  intros Heq. pose proof (next_id_fresh (users d)) as Hfresh. congruence.
Qed.

Lemma startup_admin d :
  is_Some (filter_by_username (JStr "admin") (users (startup generate_password_hash d))).
Proof.
  unfold startup.
  destruct (filter_by_username (JStr "admin") (users d)) eqn:Hf; [by rewrite Hf|].
  simpl. eapply (first_is_Some _ _ (next_id (users d))); [apply lookup_insert_eq|done].
Qed.

(** Start-up keeps every stored user as it is (an existing [admin] keeps
    its password and permissions), leaves a user named [admin] in the
    table, and run a second time changes nothing. *)
Theorem startup_idempotent d :
  (∀ i q, users d !! i = Some q →
          users (startup generate_password_hash d) !! i = Some q) ∧
  (∃ i q, users (startup generate_password_hash d) !! i = Some q ∧ username q = "admin") ∧
  startup generate_password_hash (startup generate_password_hash d)
  = startup generate_password_hash d.
Proof.
  split; [apply startup_users|]. split.
  - destruct (startup_admin d) as [[i q] Hf].
    apply filter_by_username_Some in Hf. by exists i, q.
  - destruct (startup_admin d) as [row Hf].
    unfold startup at 1. by rewrite Hf.
Qed.

Lemma startup_create_all :
  users (startup generate_password_hash create_all)
  = {[1 := {| username := "admin";
              password_hash := generate_password_hash "admin123";
              permissions := "read,create,update,delete,admin" |}]}.
Proof.
  unfold startup, create_all, filter_by_username, first, next_id, max_key. simpl.
  rewrite map_to_list_empty. simpl. by rewrite map_fold_empty.
Qed.

Lemma handle_users_invariants r d s :
  usernames_unique (users d) ∧ keys_positive (users d) →
  usernames_unique (users (handle generate_password_hash check_password_hash r d s).1.1) ∧
  keys_positive (users (handle generate_password_hash check_password_hash r d s).1.1).
Proof.
  intros [Huniq Hpos]. unfold handle.
  destruct (route _ _ r d s) as [[[d' s'] out]|e] eqn:Hroute; [|done].
  simpl. destruct r as [data|data| |op|]; simpl in Hroute.
  - apply register_Ok in Hroute as [_ [[-> _]|(u & pw & perms & _ & _ & Hfree & _ & Hout)]];
      [done|].
    simpl in Hout. destruct Hout as [-> _]. simpl. split.
    + by apply usernames_unique_insert.
    + apply keys_positive_insert; [done|]. by apply next_id_positive.
  - by apply login_Ok in Hroute as [-> _].
  - by injection Hroute as <- _ _.
  - apply run_frame in Hroute as [Hu _]. by rewrite Hu.
  - by apply get_user_permissions_database in Hroute as ->.
Qed.

Lemma reachable_users_invariants d :
  reachable generate_password_hash check_password_hash d →
  usernames_unique (users d) ∧ keys_positive (users d).
Proof.
  induction 1 as [|r d s _ IH].
  - rewrite startup_create_all. split.
    + intros i j p q Hi Hj _.
      apply lookup_singleton_Some in Hi as [<- _].
      by apply lookup_singleton_Some in Hj as [<- _].
    + intros i x Hi. by apply lookup_singleton_Some in Hi as [<- _].
  - by apply handle_users_invariants.
Qed.

(** In every database reachable from start-up no two users share a
    username and every user's key is at least 1. *)
Theorem reachable_usernames_unique d :
  reachable generate_password_hash check_password_hash d →
  usernames_unique (users d) ∧ keys_positive (users d).
Proof. apply reachable_users_invariants. Qed.

(** A login under a stored username with a password its hash accepts is
    answered 200 and leaves the user's key, name and permissions in the
    session; on a reachable database the user is the one of that name and
    the decorator reads the new session as logged in. *)
Theorem login_accepts data d s i q pw :
  reachable generate_password_hash check_password_hash d →
  users d !! i = Some q →
  data !! "username" = Some (JStr (username q)) →
  data !! "password" = Some (JStr pw) →
  check_password_hash (password_hash q) pw = true →
  let s' := {| sess_user_id := Some i; sess_username := Some (username q);
               sess_permissions := Some (permissions q) |} in
  login check_password_hash data d s
    = Ok (d, s', (UserBody "Logged in successfully" i (username q) (permissions q), 200)) ∧
  logged_in d s' i q.
Proof.
  intros Hreach Hi Hu Hpw Hok s'.
  destruct (reachable_users_invariants d Hreach) as [Huniq Hpos].
  split.
  - pose proof (filter_by_username_unique (users d) (username q) i q Huniq Hi eq_refl)
      as Hfound.
    unfold login, getitem. rewrite Hu. simpl. simpl in Hfound.
    rewrite Hfound, Hpw. simpl. by rewrite Hok.
  - split; [done|]. split; [|done]. pose proof (Hpos i q Hi). lia.
Qed.

(** Register, then login with the same payload: when the hash accepts the
    password it was made from, the login is answered 200 and the session
    holds the id, the name and the permissions the registration
    answered. *)
Theorem register_then_login data d s d' s' message id u perms :
  register generate_password_hash data d s
    = Ok (d', s', (UserBody message id u perms, 201)) →
  (∀ pw, check_password_hash (generate_password_hash pw) pw = true) →
  login check_password_hash data d' s'
    = Ok (d', {| sess_user_id := Some id; sess_username := Some u;
                 sess_permissions := Some perms |},
          (UserBody "Logged in successfully" id u perms, 200)).
Proof.
  intros Hreg Hhash.
  apply register_Ok in Hreg
    as [_ [[_ Hne]|(u0 & pw & perms0 & Hu & Hpw & Hfree & _ & Hout)]]; [done|].
  simpl in Hout. destruct Hout as [-> [= _ -> -> ->]].
  set (user := {| username := u0; password_hash := generate_password_hash pw;
                  permissions := perms0 |}).
  assert (Hfound : filter_by_username (JStr u0) (<[next_id (users d) := user]> (users d))
                   = Some (next_id (users d), user)).
  { simpl.
    destruct (first_is_Some (λ x, username x = u0)
                (<[next_id (users d) := user]> (users d)) (next_id (users d)) user)
      as [[j q] Hf]; [apply lookup_insert_eq|done|].
    rewrite Hf. apply first_Some in Hf as [Hj Hq].
    apply lookup_insert_Some in Hj as [[<- <-]|[_ Hj]]; [done|].
    by destruct (Hfree j q Hj). }
  unfold login, getitem. rewrite Hu. simpl. simpl in Hfound.
  rewrite Hfound, Hpw. simpl. by rewrite Hhash.
Qed.

End Accounts_more.

Lemma demo_check_accepts pw : demo_check (demo_hash pw) pw = true.
Proof. by apply bool_decide_eq_true_2. Qed.

Lemma register_duplicate_username_witness :
  register demo_hash {["username" := JStr "admin"]} demo_db session_clear
  = Ok (demo_db, session_clear, (ErrorBody "Username already exists", 400)).
Proof.
  apply (register_duplicate_username demo_hash _ demo_db session_clear "admin" 1 admin_user);
    reflexivity.
Defined.

Lemma users_are_kept_witness :
  users (handle demo_hash demo_check
           (Register {["username" := JStr "eve"; "password" := JStr "pw";
                       "permissions" := JStr "admin"]})
           demo_db session_clear).1.1 !! 1 = Some admin_user.
Proof. apply (users_are_kept demo_hash demo_check). reflexivity. Defined.

Lemma request_frames_witness :
  (handle demo_hash demo_check (Gated (DeletePerson 2)) demo_db admin_session).1.2
    = admin_session ∧
  (handle demo_hash demo_check (Gated (GetPerson 2)) demo_db admin_session).1.1
    = demo_db.
Proof.
  split.
  - apply (proj1 (request_frames demo_hash demo_check (Gated (DeletePerson 2))
                    demo_db admin_session)); done.
  - apply (proj2 (request_frames demo_hash demo_check (Gated (GetPerson 2))
                    demo_db admin_session)).
    reflexivity.
Defined.

Lemma startup_idempotent_witness :
  users (startup demo_hash demo_db) !! 1 = Some admin_user ∧
  startup demo_hash (startup demo_hash demo_db) = startup demo_hash demo_db.
Proof.
  split.
  - apply (proj1 (startup_idempotent demo_hash demo_db)). reflexivity.
  - apply (proj2 (proj2 (startup_idempotent demo_hash demo_db))).
Defined.

Lemma reachable_usernames_unique_witness :
  usernames_unique (users after_create.1.1) ∧ keys_positive (users after_create.1.1).
Proof.
  apply (reachable_usernames_unique demo_hash demo_check).
  unfold after_create, after_login, started.
  apply reachable_handle, reachable_handle, reachable_startup.
Defined.

Lemma login_accepts_witness :
  let s' := {| sess_user_id := Some 1; sess_username := Some "admin";
               sess_permissions := Some "read,create,update,delete,admin" |} in
  login demo_check {["username" := JStr "admin"; "password" := JStr "admin123"]}
        started session_clear
    = Ok (started, s',
          (UserBody "Logged in successfully" 1 "admin"
                    "read,create,update,delete,admin", 200)) ∧
  logged_in started s' 1 admin_user.
Proof.
  apply (login_accepts demo_hash demo_check
           {["username" := JStr "admin"; "password" := JStr "admin123"]}
           started session_clear 1 admin_user "admin123").
  - apply reachable_startup.
  - vm_compute. reflexivity.
  - reflexivity.
  - reflexivity.
  - reflexivity.
Defined.

Lemma register_then_login_witness :
  let data : payload := {["username" := JStr "eve"; "password" := JStr "pw"]} in
  let d' := {| users := <[2 := {| username := "eve"; password_hash := demo_hash "pw";
                                  permissions := "read" |}]> (users started);
               persons := ∅ |} in
  login demo_check data d' session_clear
  = Ok (d', {| sess_user_id := Some 2; sess_username := Some "eve";
               sess_permissions := Some "read" |},
        (UserBody "Logged in successfully" 2 "eve" "read", 200)).
Proof.
  intros data d'.
  apply (register_then_login demo_hash demo_check data started session_clear d'
           session_clear "User registered successfully" 2 "eve" "read").
  - vm_compute. reflexivity.
  - exact demo_check_accepts.
Defined.

(** ** Login without a password, and giving a record away *)

Section Login_edges.

Variable check_password_hash : string → string → bool.

(** A login payload without a [password] key is answered 401 "Invalid
    credentials" when no stored user has the username, and raises
    [KeyError] when one has: the password is only looked up once the user
    is found. *)
Theorem login_missing_password data d s u :
  data !! "username" = Some (JStr u) → data !! "password" = None →
  ((∀ i q, users d !! i = Some q → username q ≠ u) →
   login check_password_hash data d s
   = Ok (d, s, (ErrorBody "Invalid credentials", 401))) ∧
  ((∃ i q, users d !! i = Some q ∧ username q = u) →
   login check_password_hash data d s = Raise (KeyError "password")).
Proof.
  intros Hu Hpw. split.
  - intros Hfree. apply filter_by_username_None in Hfree. simpl in Hfree.
    unfold login, getitem. rewrite Hu. simpl. by rewrite Hfree.
  - intros (i & q & Hi & Hq).
    destruct (first_is_Some (λ user, username user = u) (users d) i q Hi Hq)
      as [[j q'] Hrow].
    unfold login, getitem. rewrite Hu. simpl. by rewrite Hrow, Hpw.
Qed.

End Login_edges.

Lemma login_missing_password_witness :
  login demo_check {["username" := JStr "nobody"]} demo_db session_clear
    = Ok (demo_db, session_clear, (ErrorBody "Invalid credentials", 401)) ∧
  login demo_check {["username" := JStr "admin"]} demo_db session_clear
    = Raise (KeyError "password").
Proof.
  split.
  - destruct (login_missing_password demo_check {["username" := JStr "nobody"]}
                demo_db session_clear "nobody") as [Hunknown _];
      [reflexivity|reflexivity|].
    apply Hunknown.
    intros i q Hi. unfold demo_db, demo_users in Hi. simpl in Hi.
    apply lookup_insert_Some in Hi as [[_ <-]|[_ Hi]]; [discriminate|].
    apply lookup_singleton_Some in Hi as [_ <-]. discriminate.
  - destruct (login_missing_password demo_check {["username" := JStr "admin"]}
                demo_db session_clear "admin") as [_ Hknown];
      [reflexivity|reflexivity|].
    apply Hknown. exists 1, admin_user. split; reflexivity.
Defined.

(** A user who is no admin and whose update, answered 200, wrote another
    user's id into [created_by] of a record (the payload having no [id]
    key) is refused that record from then on: [get_person] answers 403. *)
Theorem reassigned_record_is_lost id data d s uid user v d' s' r :
  logged_in d s uid user → holds user READ_PERMISSION → ¬ holds user "admin" →
  data !! "id" = None → data !! "created_by" = Some (JInt v) → v ≠ uid →
  update_person id data d s = Ok (d', s', r) → r.2 = 200 →
  get_person id d' s' = Ok (d', s', (ErrorBody "Access denied to this resource", 403)).
Proof.
  intros Hin Hread Hadmin Hid Hcb Hv Hrun Hr.
  apply update_person_Ok in Hrun
    as [(_ & _ & Hne)|(p & id' & p' & Hrow & Hcols & _ & _ & -> & -> & _)]; [done|].
  destruct Hcols as (Hid' & _ & _ & _ & _ & _ & Hcb').
  apply (assigned_absent _ _ _ _ _ Hid) in Hid' as ->.
  apply (assigned_present _ _ _ _ _ _ Hcb) in Hcb'.
  apply nullable_integer_column_Ok in Hcb' as [[? _]|(z & [= <-] & Hcb' & _)]; [done|].
  apply (run_stranger (GetPerson id) id _ s uid user p'); try done.
  - apply lookup_insert_eq.
  - intros [Hown|Ha]; [|done]. congruence.
Qed.

Lemma reassigned_record_is_lost_witness :
  let d' := {| users := users editor_db;
               persons := <[2 := retitled bo (Some 1)]> (persons editor_db) |} in
  get_person 2 d' bo_session
  = Ok (d', bo_session, (ErrorBody "Access denied to this resource", 403)).
Proof.
  intros d'.
  apply (reassigned_record_is_lost 2 {["created_by" := JInt 1]} editor_db bo_session
           2 editor_user 1 d' bo_session
           (PersonMessageBody "Person updated successfully" 2 (retitled bo (Some 1)), 200)).
  - repeat split; compute_done.
  - compute_done.
  - compute_done.
  - reflexivity.
  - reflexivity.
  - discriminate.
  - vm_compute. reflexivity.
  - reflexivity.
Defined.

(** ** Sessions of clients *)

Section Client_sessions.

Variable generate_password_hash : string → string.
Variable check_password_hash : string → string → bool.





End Client_sessions.

